(** * udevdb.c: the udev device database, four key spaces over one tdb

    A shallow embedding of [udevdb.c] (udev, 2003) and the properties of
    its add / delete / lookup operations.

    - C strings ([const char *], [char x[N]]) are [string]s: the
      characters before the terminating NUL.  A pointer that may be
      [NULL] is an [option].
    - [int] is [Z]; the code only copies the numbers around.
    - The tdb engine is a finite map from key strings to records, with a
      schedule of faults that says which of the coming calls into the
      environment (tdb or [malloc]) fail.
    - A stored value is the bytes of the struct that was written; a
      fetch reads them through its own struct, whichever store call
      wrote them.
    - A computation that runs into behaviour C leaves undefined (a copy
      that does not fit its buffer, a [memcpy] of more bytes than the
      value has, a string read from an array without terminator) has no
      outcome: [None]. *)

From Stdlib Require Import ZArith Ascii String.
From stdpp Require Import gmap strings.

Local Open Scope Z_scope.

(** ** Constants of the headers

    [NAME_SIZE], [PATH_SIZE], [BUS_SIZE], [ID_SIZE] and [UDEVDB_DEL] are
    macros of udev.h, namedev.h and udevdb.h.  The headers are not part
    of the sources at hand, so the development is parametric in them. *)
Class limits := Limits {
  NAME_SIZE : nat;
  PATH_SIZE : nat;
  BUS_SIZE : nat;
  ID_SIZE : nat;
  UDEVDB_DEL : string
}.

(** [ENODEV] of errno.h. *)
Definition ENODEV : Z := 19.

Abbreviation strlen := String.length.

(** ** Records *)

(** [struct busdb_record]: bus and id are keys to look up name of device. *)
Record busdb_record := Busdb_record { busdb_name : string }.

(** [struct classdb_record]: class name and class device name are keys. *)
Record classdb_record := Classdb_record { classdb_name : string }.

(** [struct sysfsdb_record]. *)
Record sysfsdb_record := Sysfsdb_record { sysfsdb_name : string }.

(** [struct namedb_record]: device name is key, remaining udevice info
    stored here. *)
Record namedb_record := Namedb_record {
  nrec_sysfs_dev_path : string;
  nrec_class_dev_name : string;
  nrec_class_name : string;
  nrec_bus : string;
  nrec_id : string;
  nrec_driver : string;
  nrec_type : ascii;
  nrec_major : Z;
  nrec_minor : Z;
  nrec_mode : Z
}.

(** [struct udevice] (declared in a header; the fields are the ones the
    code reads and writes).  [dev_driver] is [None] while the array has
    never been written: [udevdb_get_udevice] hands out a [malloc]ed
    struct whose [driver] it does not fill in. *)
Record udevice := Udevice {
  dev_name : string;
  dev_sysfs_dev_path : string;
  dev_class_dev_name : string;
  dev_class_name : string;
  dev_bus_id : string;
  dev_bus_name : string;
  dev_driver : option string;
  dev_type : ascii;
  dev_major : Z;
  dev_minor : Z;
  dev_mode : Z
}.

(** The parts of libsysfs' structs that [udevdb_add_device] reads:
    [class_dev->sysdevice->directory->path], [class_dev->sysdevice->bus_id],
    [class_dev->name] and [class_dev->driver->name]. *)
Record sysfs_directory := Sysfs_directory { dir_path : string }.
Record sysfs_device := Sysfs_device {
  sd_directory : sysfs_directory;
  sd_bus_id : string
}.
Record sysfs_driver := Sysfs_driver { drv_name : string }.
Record sysfs_class_device := Sysfs_class_device {
  cd_sysdevice : option sysfs_device;
  cd_driver : option sysfs_driver;
  cd_name : string
}.

(** What a tdb value holds: the bytes of one of the four record structs.
    The constructor stands for the size of the value and the layout of
    its bytes.  Nothing in the code tests which struct was stored: the
    key space is one, and each fetch reads whatever value its key holds
    through its own struct (see [as_busdb_record] and the like). *)
Inductive tdb_data :=
| BusData (r : busdb_record)
| ClassData (r : classdb_record)
| SysfsData (r : sysfsdb_record)
| NameData (r : namedb_record).

(** ** The world: the open database and the faults to come *)

Record world := World {
  tdb_map : gmap string tdb_data;
  faults : list bool
}.

(** Computations over the world; [None] is undefined behaviour. *)
Definition M (A : Type) : Type := world -> option (A * world).

Definition ret {A} (a : A) : M A := fun w => Some (a, w).

Definition bind {A B} (c : M A) (k : A -> M B) : M B :=
  fun w => match c w with
           | Some (a, w') => k a w'
           | None => None
           end.

Definition undefined {A} : M A := fun _ => None.

Declare Scope udev_scope.
Delimit Scope udev_scope with udev.
Notation "x <- c ;; k" := (bind c (fun x => k))
  (at level 100, c at next level, right associativity) : udev_scope.
Local Open Scope udev_scope.

(** The next entry of the fault schedule; an exhausted schedule means no
    more faults. *)
Definition pop_fault (fs : list bool) : bool * list bool :=
  match fs with
  | [] => (false, [])
  | f :: fs' => (f, fs')
  end.

Definition next_fault : M bool :=
  fun w => let (f, fs) := pop_fault (faults w) in
           Some (f, World (tdb_map w) fs).

(** ** The engine

    tdb/tdb.c is not among the sources; the three calls follow the
    contract the spec gives for the engine (4.3): fetch gives the bytes,
    or nothing when the key is absent or the engine fails; store always
    replaces; delete removes the key and reports a missing key or an
    engine failure. *)

(** Modelled from the spec: [tdb_fetch] of tdb/tdb.c.  [None] is a
    [TDB_DATA] with [dptr == NULL]. *)
Definition tdb_fetch (key : string) : M (option tdb_data) :=
  f <- next_fault ;;
  if f : bool then ret None
  else fun w => Some (tdb_map w !! key, w).

(** Modelled from the spec: [tdb_store (..., TDB_REPLACE)] of tdb/tdb.c.
    0, or -1 on failure. *)
Definition tdb_store (key : string) (data : tdb_data) : M Z :=
  f <- next_fault ;;
  if f : bool then ret (-1)
  else fun w => Some (0, World (<[key := data]> (tdb_map w)) (faults w)).

(** Modelled from the spec: [tdb_delete] of tdb/tdb.c.  0, or -1 when the
    key is missing or the engine fails. *)
Definition tdb_delete (key : string) : M Z :=
  f <- next_fault ;;
  if f : bool then ret (-1)
  else fun w => match tdb_map w !! key with
                | Some _ => Some (0, World (delete key (tdb_map w)) (faults w))
                | None => Some (-1, w)
                end.

(** [malloc (sizeof ...)]: [false] is [NULL]. *)
Definition malloc : M bool :=
  f <- next_fault ;;
  ret (negb f).

(** ** Bounded copies *)

(** [strcpy (dst, src)] into a buffer of [cap] bytes, NUL included. *)
Definition strcpy (cap : nat) (src : string) : M string :=
  if (strlen src <? cap)%nat then ret src else undefined.

(** [strcat (dst, src)] onto a buffer of [cap] bytes. *)
Definition strcat (cap : nat) (dst src : string) : M string :=
  if (strlen (dst +:+ src) <? cap)%nat then ret (dst +:+ src) else undefined.

(** [strncpy (dst, src, n)] onto a zeroed array of [struct udevice].  A
    source of [n] characters or more leaves the array cut short, and
    without a terminator when the array has [n] bytes; what the later
    [strcpy] from it reads then depends on the layout of the struct, so
    the model stops there. *)
Definition strncpy (n : nat) (src : option string) : M string :=
  match src with
  | Some s => if (strlen s <? n)%nat then ret s else undefined
  | None => undefined
  end.

Section Udevdb.
Context {L : limits}.

(** ** Fetch *)

(** The key of the bus and class spaces: [strcpy (keystr, a)],
    [strcat (keystr, UDEVDB_DEL)], [strcat (keystr, b)] into
    [char keystr[cap]]. *)
Definition keystr2 (cap : nat) (a b : string) : M string :=
  keystr <- strcpy cap a ;;
  keystr <- strcat cap keystr UDEVDB_DEL ;;
  strcat cap keystr b.

(** *** A value read through a struct

    [memcpy (rec, data.dptr, sizeof (struct ...))] copies the first bytes
    of the value, whichever struct it was stored from.  The copy is
    defined when the value has that many bytes; the string then read
    from the first array of the copy is the string that starts the
    value, provided it ends inside the copy. *)

(** The first [NAME_SIZE] bytes as [struct busdb_record].  A class entry
    has the same layout; a path entry starts with the device name in
    [PATH_SIZE] bytes; a name record starts with [sysfs_dev_path]. *)
Definition as_busdb_record (d : tdb_data) : option busdb_record :=
  match d with
  | BusData r => Some r
  | ClassData r => Some (Busdb_record (classdb_name r))
  | SysfsData r =>
      if (NAME_SIZE <=? PATH_SIZE)%nat
         && (strlen (sysfsdb_name r) <? NAME_SIZE)%nat
      then Some (Busdb_record (sysfsdb_name r)) else None
  | NameData r =>
      if (strlen (nrec_sysfs_dev_path r) <? PATH_SIZE)%nat
         && (strlen (nrec_sysfs_dev_path r) <? NAME_SIZE)%nat
      then Some (Busdb_record (nrec_sysfs_dev_path r)) else None
  end.

(** The first [NAME_SIZE] bytes as [struct classdb_record]. *)
Definition as_classdb_record (d : tdb_data) : option classdb_record :=
  match d with
  | BusData r => Some (Classdb_record (busdb_name r))
  | ClassData r => Some r
  | SysfsData r =>
      if (NAME_SIZE <=? PATH_SIZE)%nat
         && (strlen (sysfsdb_name r) <? NAME_SIZE)%nat
      then Some (Classdb_record (sysfsdb_name r)) else None
  | NameData r =>
      if (strlen (nrec_sysfs_dev_path r) <? PATH_SIZE)%nat
         && (strlen (nrec_sysfs_dev_path r) <? NAME_SIZE)%nat
      then Some (Classdb_record (nrec_sysfs_dev_path r)) else None
  end.

(** The first [PATH_SIZE] bytes as [struct sysfsdb_record].  A bus or
    class entry has [NAME_SIZE] bytes only. *)
Definition as_sysfsdb_record (d : tdb_data) : option sysfsdb_record :=
  match d with
  | BusData r =>
      if (PATH_SIZE <=? NAME_SIZE)%nat
         && (strlen (busdb_name r) <? PATH_SIZE)%nat
      then Some (Sysfsdb_record (busdb_name r)) else None
  | ClassData r =>
      if (PATH_SIZE <=? NAME_SIZE)%nat
         && (strlen (classdb_name r) <? PATH_SIZE)%nat
      then Some (Sysfsdb_record (classdb_name r)) else None
  | SysfsData r => Some r
  | NameData r =>
      if (strlen (nrec_sysfs_dev_path r) <? PATH_SIZE)%nat
      then Some (Sysfsdb_record (nrec_sysfs_dev_path r)) else None
  end.

(** The value as [struct namedb_record].  The struct holds a
    [PATH_SIZE] array, several [NAME_SIZE] arrays and more, so it is
    larger than each of the other three: read from one of them, the copy
    runs past the end of the value. *)
Definition as_namedb_record (d : tdb_data) : option namedb_record :=
  match d with
  | NameData r => Some r
  | _ => None
  end.

(** [busdb_fetch] *)
Definition busdb_fetch (bus id : option string) : M (option busdb_record) :=
  match bus, id with
  | Some bus, Some id =>
      if (BUS_SIZE <=? strlen bus)%nat || (ID_SIZE <=? strlen id)%nat
      then ret None
      else
        keystr <- keystr2 (BUS_SIZE + ID_SIZE + 2) bus id ;;
        data <- tdb_fetch keystr ;;
        match data with
        | None => ret None
        | Some d =>
            rec <- malloc ;;
            if rec : bool then
              match as_busdb_record d with
              | Some r => ret (Some r)
              | None => undefined
              end
            else ret None
        end
  | _, _ => ret None
  end.

(** [classdb_fetch] *)
Definition classdb_fetch (cls cls_dev : option string)
  : M (option classdb_record) :=
  match cls, cls_dev with
  | Some cls, Some cls_dev =>
      if (NAME_SIZE <=? strlen cls)%nat || (NAME_SIZE <=? strlen cls_dev)%nat
      then ret None
      else
        keystr <- keystr2 (NAME_SIZE + NAME_SIZE + 2) cls cls_dev ;;
        data <- tdb_fetch keystr ;;
        match data with
        | None => ret None
        | Some d =>
            rec <- malloc ;;
            if rec : bool then
              match as_classdb_record d with
              | Some r => ret (Some r)
              | None => undefined
              end
            else ret None
        end
  | _, _ => ret None
  end.

(** [sysfsdb_fetch]: no test for [NULL] here, the caller has one. *)
Definition sysfsdb_fetch (path : string) : M (option sysfsdb_record) :=
  if (PATH_SIZE <=? strlen path)%nat then ret None
  else
    keystr <- strcpy (PATH_SIZE + 2) path ;;
    data <- tdb_fetch keystr ;;
    match data with
    | None => ret None
    | Some d =>
        rec <- malloc ;;
        if rec : bool then
          match as_sysfsdb_record d with
          | Some r => ret (Some r)
          | None => undefined
          end
        else ret None
    end.

(** [namedb_fetch] *)
Definition namedb_fetch (name : option string) : M (option namedb_record) :=
  match name with
  | None => ret None
  | Some name =>
      if (NAME_SIZE <=? strlen name)%nat then ret None
      else
        nm_keystr <- strcpy NAME_SIZE name ;;
        data <- tdb_fetch nm_keystr ;;
        match data with
        | None => ret None
        | Some d =>
            nrec <- malloc ;;
            if nrec : bool then
              match as_namedb_record d with
              | Some r => ret (Some r)
              | None => undefined
              end
            else ret None
        end
  end.

(** ** Store *)

(** [busdb_store] *)
Definition busdb_store (dev : option udevice) : M Z :=
  match dev with
  | None => ret (-1)
  | Some dev =>
      keystr <- keystr2 (BUS_SIZE + ID_SIZE + 2)
                        (dev_bus_name dev) (dev_bus_id dev) ;;
      rec_name <- strcpy NAME_SIZE (dev_name dev) ;;
      tdb_store keystr (BusData (Busdb_record rec_name))
  end.

(** [classdb_store] *)
Definition classdb_store (dev : option udevice) : M Z :=
  match dev with
  | None => ret (-1)
  | Some dev =>
      keystr <- keystr2 (NAME_SIZE + NAME_SIZE + 2)
                        (dev_class_name dev) (dev_class_dev_name dev) ;;
      rec_name <- strcpy NAME_SIZE (dev_name dev) ;;
      tdb_store keystr (ClassData (Classdb_record rec_name))
  end.

(** [sysfs_store]: the record's [name] has [PATH_SIZE] bytes. *)
Definition sysfs_store (path : option string) (dev : option udevice) : M Z :=
  match dev with
  | None => ret (- ENODEV)
  | Some dev =>
      match path with
      | None => undefined
      | Some path =>
          keystr <- strcpy (PATH_SIZE + 2) path ;;
          rec_name <- strcpy PATH_SIZE (dev_name dev) ;;
          tdb_store keystr (SysfsData (Sysfsdb_record rec_name))
      end
  end.

(** [namedb_store] *)
Definition namedb_store (dev : option udevice) : M Z :=
  match dev with
  | None => ret (-1)
  | Some dev =>
      keystr <- strcpy NAME_SIZE (dev_name dev) ;;
      rec_sysfs_dev_path <- strcpy PATH_SIZE (dev_sysfs_dev_path dev) ;;
      rec_bus <- strcpy BUS_SIZE (dev_bus_name dev) ;;
      rec_id <- strcpy ID_SIZE (dev_bus_id dev) ;;
      rec_class_dev_name <- strcpy NAME_SIZE (dev_class_dev_name dev) ;;
      rec_class_name <- strcpy NAME_SIZE (dev_class_name dev) ;;
      rec_driver <- match dev_driver dev with
                    | Some d => strcpy NAME_SIZE d
                    | None => undefined
                    end ;;
      tdb_store keystr
        (NameData {| nrec_sysfs_dev_path := rec_sysfs_dev_path;
                     nrec_class_dev_name := rec_class_dev_name;
                     nrec_class_name := rec_class_name;
                     nrec_bus := rec_bus;
                     nrec_id := rec_id;
                     nrec_driver := rec_driver;
                     nrec_type := dev_type dev;
                     nrec_major := dev_major dev;
                     nrec_minor := dev_minor dev;
                     nrec_mode := dev_mode dev |})
  end.

(** ** Delete *)

(** [busdb_delete] *)
Definition busdb_delete (bus id : option string) : M Z :=
  match bus, id with
  | Some bus, Some id =>
      if (BUS_SIZE <=? strlen bus)%nat || (ID_SIZE <=? strlen id)%nat
      then ret (-1)
      else
        keystr <- keystr2 (BUS_SIZE + ID_SIZE + 2) bus id ;;
        tdb_delete keystr
  | _, _ => ret (-1)
  end.

(** [classdb_delete] *)
Definition classdb_delete (cls cls_dev : option string) : M Z :=
  match cls, cls_dev with
  | Some cls, Some cls_dev =>
      if (NAME_SIZE <=? strlen cls)%nat || (NAME_SIZE <=? strlen cls_dev)%nat
      then ret (-1)
      else
        keystr <- keystr2 (NAME_SIZE + NAME_SIZE + 2) cls cls_dev ;;
        tdb_delete keystr
  | _, _ => ret (-1)
  end.

(** [namedb_delete] *)
Definition namedb_delete (name : option string) : M Z :=
  match name with
  | None => ret (-1)
  | Some name =>
      if (NAME_SIZE <=? strlen name)%nat then ret (-1)
      else
        keystr <- strcpy NAME_SIZE name ;;
        tdb_delete keystr
  end.

(** ** The interface of udevdb.h *)

(** [udevdb_delete_udevice]: the results of the three deletions are
    dropped. *)
Definition udevdb_delete_udevice (name : option string) : M Z :=
  match name with
  | None => ret (-1)
  | Some _ =>
      nrec <- namedb_fetch name ;;
      match nrec with
      | None => ret (-1)
      | Some nrec =>
          _ <- busdb_delete (Some (nrec_bus nrec)) (Some (nrec_id nrec)) ;;
          _ <- classdb_delete (Some (nrec_class_name nrec))
                              (Some (nrec_class_dev_name nrec)) ;;
          _ <- namedb_delete name ;;
          ret 0
      end
  end.

(** [udevdb_add_device]: adds class device to database.  [dbdev] is
    zeroed first, so [class_name] stays empty (the lines that filled it
    are commented out) and a missing [sysdevice] leaves the path and the
    bus id empty. *)
Definition udevdb_add_device (device : option string)
    (class_dev : option sysfs_class_device) (name : option string)
    (type : ascii) (major minor mode : Z) : M Z :=
  match class_dev with
  | None => ret (- ENODEV)
  | Some class_dev =>
      dbdev_name <- strncpy NAME_SIZE name ;;
      sys <- match cd_sysdevice class_dev with
             | Some sysdevice =>
                 p <- strncpy PATH_SIZE
                        (Some (dir_path (sd_directory sysdevice))) ;;
                 i <- strncpy ID_SIZE (Some (sd_bus_id sysdevice)) ;;
                 ret (p, i)
             | None => ret (EmptyString, EmptyString)
             end ;;
      dbdev_class_dev_name <- strncpy NAME_SIZE (Some (cd_name class_dev)) ;;
      dbdev_driver <- match cd_driver class_dev with
                      | Some driver => strncpy NAME_SIZE (Some (drv_name driver))
                      | None => ret "unknown"%string
                      end ;;
      let dbdev :=
        {| dev_name := dbdev_name;
           dev_sysfs_dev_path := fst sys;
           dev_class_dev_name := dbdev_class_dev_name;
           dev_class_name := EmptyString;
           dev_bus_id := snd sys;
           dev_bus_name := "unknown"%string;
           dev_driver := Some dbdev_driver;
           dev_type := type;
           dev_major := major;
           dev_minor := minor;
           dev_mode := mode |} in
      r <- busdb_store (Some dbdev) ;;
      if negb (r =? 0) then ret (-1) else
      r <- classdb_store (Some dbdev) ;;
      if negb (r =? 0) then ret (-1) else
      r <- sysfs_store device (Some dbdev) ;;
      if negb (r =? 0) then ret (-1) else
      r <- namedb_store (Some dbdev) ;;
      if negb (r =? 0) then ret (-1) else
      ret 0
  end.

(** [udevdb_get_udevice]: grabs device by name.  Every field of the new
    struct is copied from the record but [driver]. *)
Definition udevdb_get_udevice (name : option string) : M (option udevice) :=
  match name with
  | None => ret None
  | Some nm =>
      nrec <- namedb_fetch name ;;
      match nrec with
      | None => ret None
      | Some nrec =>
          dev <- malloc ;;
          if dev : bool then
            ret (Some {| dev_name := nm;
                         dev_sysfs_dev_path := nrec_sysfs_dev_path nrec;
                         dev_class_dev_name := nrec_class_dev_name nrec;
                         dev_class_name := nrec_class_name nrec;
                         dev_bus_name := nrec_bus nrec;
                         dev_bus_id := nrec_id nrec;
                         dev_driver := None;
                         dev_type := nrec_type nrec;
                         dev_major := nrec_major nrec;
                         dev_minor := nrec_minor nrec;
                         dev_mode := nrec_mode nrec |})
          else ret None
      end
  end.

(** [udevdb_get_udevice_by_bus] *)
Definition udevdb_get_udevice_by_bus (bus id : option string)
  : M (option udevice) :=
  match bus, id with
  | Some _, Some _ =>
      brec <- busdb_fetch bus id ;;
      match brec with
      | None => ret None
      | Some brec => udevdb_get_udevice (Some (busdb_name brec))
      end
  | _, _ => ret None
  end.

(** [udevdb_get_udevice_by_class] *)
Definition udevdb_get_udevice_by_class (cls cls_dev : option string)
  : M (option udevice) :=
  match cls, cls_dev with
  | Some _, Some _ =>
      crec <- classdb_fetch cls cls_dev ;;
      match crec with
      | None => ret None
      | Some crec => udevdb_get_udevice (Some (classdb_name crec))
      end
  | _, _ => ret None
  end.

(** [udevdb_get_udevice_by_sysfs]: the name held by the path entry; the
    name record is not consulted. *)
Definition udevdb_get_udevice_by_sysfs (path : option string)
  : M (option string) :=
  match path with
  | None => ret None
  | Some path =>
      crec <- sysfsdb_fetch path ;;
      match crec with
      | None => ret None
      | Some crec => ret (Some (sysfsdb_name crec))
      end
  end.

End Udevdb.

(** ** Vocabulary of the properties *)

Section Vocabulary.
Context {L : limits}.

(** The key that [keystr2] builds. *)
Definition key2 (a b : string) : string := (a +:+ UDEVDB_DEL) +:+ b.

(** What the constants have to satisfy for the fixed strings of the code
    to fit its buffers: "unknown" in [bus] and [driver] arrays, a device
    name in the [PATH_SIZE] array of a path entry, and two parts of
    admitted length plus the delimiter in a key buffer. *)
Definition limits_ok : Prop :=
  (7 < BUS_SIZE ∧ 7 < NAME_SIZE ∧ 0 < ID_SIZE ∧ NAME_SIZE ≤ PATH_SIZE
   ∧ strlen UDEVDB_DEL ≤ 3)%nat.

(** The path and the bus id [udevdb_add_device] takes from [class_dev]. *)
Definition sys_path (cd : sysfs_class_device) : string :=
  match cd_sysdevice cd with
  | Some sd => dir_path (sd_directory sd)
  | None => EmptyString
  end.

Definition sys_bus_id (cd : sysfs_class_device) : string :=
  match cd_sysdevice cd with
  | Some sd => sd_bus_id sd
  | None => EmptyString
  end.

Definition driver_name (cd : sysfs_class_device) : string :=
  match cd_driver cd with
  | Some d => drv_name d
  | None => "unknown"%string
  end.

(** Arguments that no bounded copy of [udevdb_add_device] cuts short and
    that fit the key buffer of [sysfs_store]. *)
Definition add_args_ok (device : string) (cd : sysfs_class_device)
    (name : string) : Prop :=
  (strlen name < NAME_SIZE
   ∧ strlen device < PATH_SIZE + 2
   ∧ strlen (cd_name cd) < NAME_SIZE
   ∧ match cd_sysdevice cd with
     | Some sd => strlen (dir_path (sd_directory sd)) < PATH_SIZE
                  ∧ strlen (sd_bus_id sd) < ID_SIZE
     | None => True
     end
   ∧ match cd_driver cd with
     | Some d => strlen (drv_name d) < NAME_SIZE
     | None => True
     end)%nat.

(** The record [namedb_store] writes for these arguments. *)
Definition added_record (cd : sysfs_class_device) (type : ascii)
    (major minor mode : Z) : namedb_record :=
  {| nrec_sysfs_dev_path := sys_path cd;
     nrec_class_dev_name := cd_name cd;
     nrec_class_name := EmptyString;
     nrec_bus := "unknown"%string;
     nrec_id := sys_bus_id cd;
     nrec_driver := driver_name cd;
     nrec_type := type;
     nrec_major := major;
     nrec_minor := minor;
     nrec_mode := mode |}.

(** The four writes of [udevdb_add_device], in the order of the code. *)
Definition add_writes (device : string) (cd : sysfs_class_device)
    (name : string) (type : ascii) (major minor mode : Z)
  : list (string * tdb_data) :=
  [ (key2 "unknown" (sys_bus_id cd), BusData (Busdb_record name));
    (key2 EmptyString (cd_name cd), ClassData (Classdb_record name));
    (device, SysfsData (Sysfsdb_record name));
    (name, NameData (added_record cd type major minor mode)) ].


End Vocabulary.

(** Writes applied to a map, first to last. *)
Fixpoint apply_writes (ws : list (string * tdb_data))
    (m : gmap string tdb_data) : gmap string tdb_data :=
  match ws with
  | [] => m
  | (k, d) :: ws' => apply_writes ws' (<[k := d]> m)
  end.

(** The writes as [udevdb_add_device] chains them: stop with -1 at the
    first one that fails. *)
Fixpoint run_writes (ws : list (string * tdb_data))
    (m : gmap string tdb_data) (fs : list bool) : Z * world :=
  match ws with
  | [] => (0, World m fs)
  | (k, d) :: ws' =>
      let (f, fs') := pop_fault fs in
      if f : bool then (-1, World m fs')
      else run_writes ws' (<[k := d]> m) fs'
  end.

(** Whether a character occurs in a string. *)
Fixpoint occurs (c : ascii) (s : string) : bool :=
  match s with
  | EmptyString => false
  | String c' s' => if Ascii.eqb c c' then true else occurs c s'
  end.

(** ** The descriptor of the specification

    The specification speaks of a descriptor with a bus and a class of
    its own.  [udevdb_add_device] has no such arguments; the descriptor
    reaches it as follows, its path serving both as the key of the path
    entry and as the path in the record. *)
Record descriptor := Descriptor {
  d_name : string;
  d_bus : string;
  d_id : string;
  d_class : string;
  d_class_dev : string;
  d_path : string;
  d_driver : option string;
  d_type : ascii;
  d_major : Z;
  d_minor : Z;
  d_mode : Z
}.

Definition class_dev_of (D : descriptor) : sysfs_class_device :=
  {| cd_sysdevice := Some {| sd_directory := {| dir_path := d_path D |};
                             sd_bus_id := d_id D |};
     cd_driver := Sysfs_driver <$> d_driver D;
     cd_name := d_class_dev D |}.

Section Spec.
Context {L : limits}.

Definition add_device (D : descriptor) : M Z :=
  udevdb_add_device (Some (d_path D)) (Some (class_dev_of D))
    (Some (d_name D)) (d_type D) (d_major D) (d_minor D) (d_mode D).

Definition delete_device (name : string) : M Z :=
  udevdb_delete_udevice (Some name).

Definition get_device_by_name (name : string) : M (option udevice) :=
  udevdb_get_udevice (Some name).

Definition get_device_by_bus (bus id : string) : M (option udevice) :=
  udevdb_get_udevice_by_bus (Some bus) (Some id).

Definition get_device_by_class (cls cls_dev : string) : M (option udevice) :=
  udevdb_get_udevice_by_class (Some cls) (Some cls_dev).

Definition get_device_by_path (path : string) : M (option string) :=
  udevdb_get_udevice_by_sysfs (Some path).

(** Spec 4.1: every part is non-empty and strictly shorter than its
    maximum. *)
Definition spec_valid (D : descriptor) : Prop :=
  (0 < strlen (d_name D) < NAME_SIZE
   ∧ 0 < strlen (d_bus D) < BUS_SIZE
   ∧ 0 < strlen (d_id D) < ID_SIZE
   ∧ 0 < strlen (d_class D) < NAME_SIZE
   ∧ 0 < strlen (d_class_dev D) < NAME_SIZE
   ∧ 0 < strlen (d_path D) < PATH_SIZE
   ∧ match d_driver D with
     | Some d => strlen d < NAME_SIZE
     | None => True
     end)%nat.

(** Spec 4.4, step 1: the record derived from the descriptor, an absent
    field replaced by the "unknown" marker. *)
Definition spec_normalized (D : descriptor) : udevice :=
  {| dev_name := d_name D;
     dev_sysfs_dev_path := d_path D;
     dev_class_dev_name := d_class_dev D;
     dev_class_name := d_class D;
     dev_bus_id := d_id D;
     dev_bus_name := d_bus D;
     dev_driver := Some (default "unknown"%string (d_driver D));
     dev_type := d_type D;
     dev_major := d_major D;
     dev_minor := d_minor D;
     dev_mode := d_mode D |}.

End Spec.

(** ** A setting to run the code in

    One choice of sizes and delimiter, to run the code on examples.  The
    general theorems hold for every choice that meets their hypotheses. *)
Definition udev_limits : limits :=
  {| NAME_SIZE := 100; PATH_SIZE := 256; BUS_SIZE := 30; ID_SIZE := 50;
     UDEVDB_DEL := "#" |}.

(** The scenario of the specification (8): disk sda on the scsi bus,
    mode 0660. *)
Definition sda : descriptor :=
  {| d_name := "sda"; d_bus := "scsi"; d_id := "0:0:0:0";
     d_class := "block"; d_class_dev := "sda"; d_path := "/block/sda";
     d_driver := Some "sd"%string; d_type := "b"%char;
     d_major := 8; d_minor := 0; d_mode := 432 |}.

(** An open, empty database and no faults ahead. *)
Definition empty_world : world := World ∅ [].

(** A string of [n] characters [c]. *)
Fixpoint fill (n : nat) (c : ascii) : string :=
  match n with
  | O => EmptyString
  | S n' => String c (fill n' c)
  end.

(** A computation that hands the key-value mapping on as it found it,
    whatever it returns. *)
Definition read_only {A} (c : M A) : Prop :=
  ∀ w a w', c w = Some (a, w') → tdb_map w' = tdb_map w.

(** The record and the four entries [udevdb_add_device] leaves for [sda]
    in an empty store. *)
Definition sda_record : namedb_record :=
  {| nrec_sysfs_dev_path := "/block/sda";
     nrec_class_dev_name := "sda";
     nrec_class_name := EmptyString;
     nrec_bus := "unknown";
     nrec_id := "0:0:0:0";
     nrec_driver := "sd";
     nrec_type := "b"%char;
     nrec_major := 8;
     nrec_minor := 0;
     nrec_mode := 432 |}.

Definition sda_store : gmap string tdb_data :=
  <["sda"%string := NameData sda_record]>
    (<["/block/sda"%string := SysfsData (Sysfsdb_record "sda")]>
       (<["#sda"%string := ClassData (Classdb_record "sda")]>
          (<["unknown#0:0:0:0"%string := BusData (Busdb_record "sda")]> ∅))).

(** What [udevdb_get_udevice] returns for "sda" from [sda_store]. *)
Definition sda_found : udevice :=
  {| dev_name := "sda";
     dev_sysfs_dev_path := "/block/sda";
     dev_class_dev_name := "sda";
     dev_class_name := EmptyString;
     dev_bus_id := "0:0:0:0";
     dev_bus_name := "unknown";
     dev_driver := None;
     dev_type := "b"%char;
     dev_major := 8;
     dev_minor := 0;
     dev_mode := 432 |}.

(** A store with a bus entry for "sda" and no name record. *)
Definition dangling_store : gmap string tdb_data :=
  {[ "unknown#0:0:0:0"%string := BusData (Busdb_record "sda") ]}.

(** A path of [PATH_SIZE] characters under [udev_limits]. *)
Definition long_path : string := fill 256 "a"%char.

(** ** The handle of the database

    [udevdb_init] and [udevdb_exit] work on the static pointer [udevdb];
    the record operations above are modelled on an open database.  The
    two flags are macros of udevdb.h, which is not among the sources. *)
Class open_flags := Open_flags {
  UDEVDB_DEFAULT : Z;
  UDEVDB_INTERNAL : Z
}.

(** [EINVAL] of errno.h. *)
Definition EINVAL : Z := 22.

(** The static [udevdb] ([None] is [NULL]) and what the coming calls of
    [tdb_open] hand out: a database, or [NULL] on failure. *)
Record process := Process {
  udevdb : option (gmap string tdb_data);
  opens : list (option (gmap string tdb_data))
}.

(** Modelled from the spec: [tdb_open] of tdb/tdb.c (4.3: open gives a
    handle or fails).  Which database the call opens is the
    environment's; with nothing scheduled it opens an empty one. *)
Definition tdb_open (method : Z) (p : process)
  : option (gmap string tdb_data) * process :=
  match opens p with
  | [] => (Some ∅, p)
  | h :: rest => (h, Process (udevdb p) rest)
  end.

(** [udevdb_close]: close udev database. *)
Definition udevdb_close (p : process) : process :=
  match udevdb p with
  | Some _ => Process None (opens p)
  | None => p
  end.

(** [udevdb_open]: the pointer is assigned before it is tested. *)
Definition udevdb_open (method : Z) (p : process) : Z * process :=
  let (h, p') := tdb_open method p in
  let p'' := Process h (opens p') in
  match h with
  | None => (- EINVAL, p'')
  | Some _ => (0, p'')
  end.

(** [udevdb_exit]: closes database. *)
Definition udevdb_exit (p : process) : process := udevdb_close p.

(** [udevdb_init]: initializes database. *)
Definition udevdb_init `{open_flags} (init_flag : Z) (p : process)
  : Z * process :=
  if negb (init_flag =? UDEVDB_DEFAULT) && negb (init_flag =? UDEVDB_INTERNAL)
  then (-1, p)
  else udevdb_open init_flag p.

(** ** Records within the bounds of their arrays *)

Section Bounds.
Context {L : limits}.

(** Every string of a [struct namedb_record] ends inside its array. *)
Definition record_in_bounds (r : namedb_record) : Prop :=
  (strlen (nrec_sysfs_dev_path r) < PATH_SIZE
   ∧ strlen (nrec_class_dev_name r) < NAME_SIZE
   ∧ strlen (nrec_class_name r) < NAME_SIZE
   ∧ strlen (nrec_bus r) < BUS_SIZE
   ∧ strlen (nrec_id r) < ID_SIZE
   ∧ strlen (nrec_driver r) < NAME_SIZE)%nat.

Definition data_in_bounds (d : tdb_data) : Prop :=
  match d with
  | BusData r => (strlen (busdb_name r) < NAME_SIZE)%nat
  | ClassData r => (strlen (classdb_name r) < NAME_SIZE)%nat
  | SysfsData r => (strlen (sysfsdb_name r) < PATH_SIZE)%nat
  | NameData r => record_in_bounds r
  end.

Definition store_in_bounds (m : gmap string tdb_data) : Prop :=
  ∀ k d, m !! k = Some d → data_in_bounds d.

(** Every string of a [struct udevice] that [namedb_store] copies fits
    the array of the record it goes to, and the driver has been set. *)
Definition udevice_in_bounds (dev : udevice) : Prop :=
  (strlen (dev_name dev) < NAME_SIZE
   ∧ strlen (dev_sysfs_dev_path dev) < PATH_SIZE
   ∧ strlen (dev_class_dev_name dev) < NAME_SIZE
   ∧ strlen (dev_class_name dev) < NAME_SIZE
   ∧ strlen (dev_bus_id dev) < ID_SIZE
   ∧ strlen (dev_bus_name dev) < BUS_SIZE
   ∧ match dev_driver dev with
     | Some d => strlen d < NAME_SIZE
     | None => False
     end)%nat.

End Bounds.

(** An argument that is [NULL], or a string at or over the bound [n]. *)
Definition null_or_long (n : nat) (s : option string) : Prop :=
  match s with
  | None => True
  | Some s => (n ≤ strlen s)%nat
  end.

(** The struct [udevdb_get_udevice] fills from the record of a name. *)
Definition udevice_of (name : string) (r : namedb_record) : udevice :=
  {| dev_name := name;
     dev_sysfs_dev_path := nrec_sysfs_dev_path r;
     dev_class_dev_name := nrec_class_dev_name r;
     dev_class_name := nrec_class_name r;
     dev_bus_id := nrec_id r;
     dev_bus_name := nrec_bus r;
     dev_driver := None;
     dev_type := nrec_type r;
     dev_major := nrec_major r;
     dev_minor := nrec_minor r;
     dev_mode := nrec_mode r |}.

(** Two class devices without a sysdevice and without a driver. *)
Definition null_cd : sysfs_class_device :=
  {| cd_sysdevice := None; cd_driver := None; cd_name := "null" |}.

Definition zero_cd : sysfs_class_device :=
  {| cd_sysdevice := None; cd_driver := None; cd_name := "zero" |}.

(** A second disk, at the next bus id. *)
Definition sdb_cd : sysfs_class_device :=
  {| cd_sysdevice := Some {| sd_directory := {| dir_path := "/block/sdb" |};
                             sd_bus_id := "0:0:1:0" |};
     cd_driver := Some {| drv_name := "sd" |};
     cd_name := "sdb" |}.


(** [sda_store] after the first write of an add of "sdb". *)
Definition sda_store_and_sdb_bus : gmap string tdb_data :=
  <["unknown#0:0:1:0"%string := BusData (Busdb_record "sdb")]> sda_store.

(** One choice of the flags. *)
Definition udev_flags : open_flags :=
  {| UDEVDB_DEFAULT := 0; UDEVDB_INTERNAL := 1 |}.

(** ** Running the building blocks *)

Lemma strlen_app (s1 s2 : string) :
  strlen (s1 +:+ s2) = (strlen s1 + strlen s2)%nat.
Proof. induction s1 as [|c s1 IH]; simpl; [done | by rewrite IH]. Qed.

Lemma strcpy_run cap s w :
  strcpy cap s w = if (strlen s <? cap)%nat then Some (s, w) else None.
Proof. unfold strcpy. by destruct (strlen s <? cap)%nat. Qed.

Lemma strcat_run cap d s w :
  strcat cap d s w =
  if (strlen d + strlen s <? cap)%nat then Some (d +:+ s, w) else None.
Proof.
  unfold strcat. rewrite strlen_app.
  by destruct (strlen d + strlen s <? cap)%nat.
Qed.

Lemma strncpy_run n s w :
  strncpy n (Some s) w = if (strlen s <? n)%nat then Some (s, w) else None.
Proof. unfold strncpy. by destruct (strlen s <? n)%nat. Qed.

Lemma bind_run {A B} (c : M A) (k : A → M B) w a w' :
  c w = Some (a, w') → bind c k w = k a w'.
Proof. unfold bind. by intros ->. Qed.

Lemma tdb_store_run k d m fs :
  tdb_store k d (World m fs) =
  Some (if (pop_fault fs).1 then -1 else 0,
        World (if (pop_fault fs).1 then m else <[k := d]> m)
              (pop_fault fs).2).
Proof. by destruct fs as [|[] fs]. Qed.

Lemma tdb_fetch_run k m : tdb_fetch k (World m []) = Some (m !! k, World m []).
Proof. done. Qed.

Lemma tdb_delete_run k m :
  tdb_delete k (World m []) =
  Some (if m !! k is Some _ then 0 else -1, World (delete k m) []).
Proof.
  unfold tdb_delete, bind, next_fault; simpl.
  destruct (m !! k) eqn:E; [done|]. by rewrite delete_id.
Qed.

Lemma malloc_run m : malloc (World m []) = Some (true, World m []).
Proof. done. Qed.

Section Runs.
Context {L : limits}.

Lemma keystr2_run cap a b w :
  keystr2 cap a b w =
  if (strlen (key2 a b) <? cap)%nat then Some (key2 a b, w) else None.
Proof.
  unfold keystr2, key2, bind. rewrite strcpy_run.
  destruct (strlen a <? cap)%nat eqn:E1.
  - rewrite strcat_run, strlen_app.
    destruct (strlen a + strlen UDEVDB_DEL <? cap)%nat eqn:E2.
    + rewrite strcat_run, !strlen_app. done.
    + rewrite !strlen_app. apply Nat.ltb_ge in E2.
      destruct (Nat.ltb_spec (strlen a + strlen UDEVDB_DEL + strlen b) cap);
        [lia | done].
  - rewrite !strlen_app. apply Nat.ltb_ge in E1.
    destruct (Nat.ltb_spec (strlen a + strlen UDEVDB_DEL + strlen b) cap);
      [lia | done].
Qed.

Lemma strcpy_ok cap s w : (strlen s < cap)%nat → strcpy cap s w = Some (s, w).
Proof. intros H. rewrite strcpy_run. by apply Nat.ltb_lt in H as ->. Qed.

Lemma strncpy_ok n s w :
  (strlen s < n)%nat → strncpy n (Some s) w = Some (s, w).
Proof. intros H. rewrite strncpy_run. by apply Nat.ltb_lt in H as ->. Qed.

Lemma keystr2_ok cap a b w :
  (strlen a + strlen UDEVDB_DEL + strlen b < cap)%nat →
  keystr2 cap a b w = Some (key2 a b, w).
Proof.
  intros H. rewrite keystr2_run. unfold key2. rewrite !strlen_app.
  by apply Nat.ltb_lt in H as ->.
Qed.

Lemma busdb_store_ok dev w :
  (strlen (dev_bus_name dev) + strlen UDEVDB_DEL + strlen (dev_bus_id dev)
   < BUS_SIZE + ID_SIZE + 2)%nat →
  (strlen (dev_name dev) < NAME_SIZE)%nat →
  busdb_store (Some dev) w =
  tdb_store (key2 (dev_bus_name dev) (dev_bus_id dev))
            (BusData (Busdb_record (dev_name dev))) w.
Proof.
  intros Hk Hn. unfold busdb_store.
  erewrite bind_run by (by apply keystr2_ok).
  erewrite bind_run by (by apply strcpy_ok). done.
Qed.

Lemma classdb_store_ok dev w :
  (strlen (dev_class_name dev) + strlen UDEVDB_DEL
   + strlen (dev_class_dev_name dev) < NAME_SIZE + NAME_SIZE + 2)%nat →
  (strlen (dev_name dev) < NAME_SIZE)%nat →
  classdb_store (Some dev) w =
  tdb_store (key2 (dev_class_name dev) (dev_class_dev_name dev))
            (ClassData (Classdb_record (dev_name dev))) w.
Proof.
  intros Hk Hn. unfold classdb_store.
  erewrite bind_run by (by apply keystr2_ok).
  erewrite bind_run by (by apply strcpy_ok). done.
Qed.

Lemma sysfs_store_ok path dev w :
  (strlen path < PATH_SIZE + 2)%nat →
  (strlen (dev_name dev) < PATH_SIZE)%nat →
  sysfs_store (Some path) (Some dev) w =
  tdb_store path (SysfsData (Sysfsdb_record (dev_name dev))) w.
Proof.
  intros Hk Hn. unfold sysfs_store.
  erewrite bind_run by (by apply strcpy_ok).
  erewrite bind_run by (by apply strcpy_ok). done.
Qed.

Lemma namedb_store_ok dev drv w :
  dev_driver dev = Some drv →
  (strlen (dev_name dev) < NAME_SIZE)%nat →
  (strlen (dev_sysfs_dev_path dev) < PATH_SIZE)%nat →
  (strlen (dev_bus_name dev) < BUS_SIZE)%nat →
  (strlen (dev_bus_id dev) < ID_SIZE)%nat →
  (strlen (dev_class_dev_name dev) < NAME_SIZE)%nat →
  (strlen (dev_class_name dev) < NAME_SIZE)%nat →
  (strlen drv < NAME_SIZE)%nat →
  namedb_store (Some dev) w =
  tdb_store (dev_name dev)
    (NameData {| nrec_sysfs_dev_path := dev_sysfs_dev_path dev;
                 nrec_class_dev_name := dev_class_dev_name dev;
                 nrec_class_name := dev_class_name dev;
                 nrec_bus := dev_bus_name dev;
                 nrec_id := dev_bus_id dev;
                 nrec_driver := drv;
                 nrec_type := dev_type dev;
                 nrec_major := dev_major dev;
                 nrec_minor := dev_minor dev;
                 nrec_mode := dev_mode dev |}) w.
Proof.
  intros Hd H1 H2 H3 H4 H5 H6 H7. unfold namedb_store. rewrite Hd.
  do 7 (erewrite bind_run by (by apply strcpy_ok)). done.
Qed.

Ltac run_copy :=
  first [ apply strncpy_ok; simpl; lia
        | apply strcpy_ok; simpl; lia
        | apply keystr2_ok; simpl; lia
        | reflexivity
        | erewrite bind_run by run_copy; run_copy ].

(** [udevdb_add_device] on arguments within bounds is its four writes,
    whatever the faults. *)
Lemma udevdb_add_device_run device cd name type major minor mode m fs :
  limits_ok → add_args_ok device cd name →
  udevdb_add_device (Some device) (Some cd) (Some name)
                    type major minor mode (World m fs) =
  Some (run_writes (add_writes device cd name type major minor mode) m fs).
Proof.
  intros (Hb & Hn & Hi & Hp & Hd) (An & Adev & Acd & Asys & Adrv).
  unfold udevdb_add_device, add_writes, added_record,
    sys_path, sys_bus_id, driver_name.
  destruct cd as [sysdevice driver cdn];
    cbn [cd_sysdevice cd_driver cd_name] in *.
  destruct sysdevice as [[[p] i]|], driver as [[d]|];
    cbn [sd_directory sd_bus_id dir_path drv_name] in *;
    [destruct Asys as [? ?] ..| |].
  all: repeat (erewrite bind_run by run_copy).
  all: cbn [fst snd].
  all: erewrite bind_run
    by (rewrite busdb_store_ok by (simpl; lia); apply tdb_store_run).
  all: destruct fs as [|[] fs]; cbn [pop_fault fst snd run_writes negb Z.eqb];
    try done.
  all: erewrite bind_run
    by (rewrite classdb_store_ok by (simpl; lia); apply tdb_store_run).
  all: try (destruct fs as [|[] fs]);
    cbn [pop_fault fst snd run_writes negb Z.eqb]; try done.
  all: erewrite bind_run
    by (rewrite sysfs_store_ok by (simpl; lia); apply tdb_store_run).
  all: try (destruct fs as [|[] fs]);
    cbn [pop_fault fst snd run_writes negb Z.eqb]; try done.
  all: erewrite bind_run
    by (erewrite namedb_store_ok by (simpl; first [lia | done]);
        apply tdb_store_run).
  all: try (destruct fs as [|[] fs]);
    cbn [pop_fault fst snd run_writes negb Z.eqb]; try done.
Qed.

(** *** Fetches with no fault ahead *)

Lemma namedb_fetch_hit name r m :
  (strlen name < NAME_SIZE)%nat → m !! name = Some (NameData r) →
  namedb_fetch (Some name) (World m []) = Some (Some r, World m []).
Proof.
  intros Hn Hm. unfold namedb_fetch.
  rewrite (proj2 (Nat.leb_gt _ _) Hn).
  erewrite bind_run by run_copy.
  erewrite bind_run by apply tdb_fetch_run. rewrite Hm.
  erewrite bind_run by apply malloc_run. done.
Qed.

Lemma namedb_fetch_miss name m :
  m !! name = None →
  namedb_fetch (Some name) (World m []) = Some (None, World m []).
Proof.
  intros Hm. unfold namedb_fetch.
  destruct (Nat.leb_spec NAME_SIZE (strlen name)) as [|Hn]; [done|].
  erewrite bind_run by run_copy.
  erewrite bind_run by apply tdb_fetch_run. by rewrite Hm.
Qed.

Lemma busdb_fetch_hit bus id r m :
  (strlen UDEVDB_DEL ≤ 3)%nat →
  (strlen bus < BUS_SIZE)%nat → (strlen id < ID_SIZE)%nat →
  m !! key2 bus id = Some (BusData r) →
  busdb_fetch (Some bus) (Some id) (World m []) = Some (Some r, World m []).
Proof.
  intros Hd Hb Hi Hm. unfold busdb_fetch.
  rewrite (proj2 (Nat.leb_gt _ _) Hb), (proj2 (Nat.leb_gt _ _) Hi).
  cbn [orb].
  erewrite bind_run by run_copy.
  erewrite bind_run by apply tdb_fetch_run. rewrite Hm.
  erewrite bind_run by apply malloc_run. done.
Qed.

Lemma busdb_fetch_miss bus id m :
  (strlen UDEVDB_DEL ≤ 3)%nat →
  m !! key2 bus id = None →
  busdb_fetch (Some bus) (Some id) (World m []) = Some (None, World m []).
Proof.
  intros Hd Hm. unfold busdb_fetch.
  destruct (Nat.leb_spec BUS_SIZE (strlen bus)) as [|Hb]; [done|].
  destruct (Nat.leb_spec ID_SIZE (strlen id)) as [|Hi]; [done|].
  cbn [orb].
  erewrite bind_run by run_copy.
  erewrite bind_run by apply tdb_fetch_run. by rewrite Hm.
Qed.

Lemma classdb_fetch_hit cls cls_dev r m :
  (strlen UDEVDB_DEL ≤ 3)%nat →
  (strlen cls < NAME_SIZE)%nat → (strlen cls_dev < NAME_SIZE)%nat →
  m !! key2 cls cls_dev = Some (ClassData r) →
  classdb_fetch (Some cls) (Some cls_dev) (World m [])
  = Some (Some r, World m []).
Proof.
  intros Hd Hb Hi Hm. unfold classdb_fetch.
  rewrite (proj2 (Nat.leb_gt _ _) Hb), (proj2 (Nat.leb_gt _ _) Hi).
  cbn [orb].
  erewrite bind_run by run_copy.
  erewrite bind_run by apply tdb_fetch_run. rewrite Hm.
  erewrite bind_run by apply malloc_run. done.
Qed.

Lemma classdb_fetch_miss cls cls_dev m :
  (strlen UDEVDB_DEL ≤ 3)%nat →
  m !! key2 cls cls_dev = None →
  classdb_fetch (Some cls) (Some cls_dev) (World m [])
  = Some (None, World m []).
Proof.
  intros Hd Hm. unfold classdb_fetch.
  destruct (Nat.leb_spec NAME_SIZE (strlen cls)) as [|Hb]; [done|].
  destruct (Nat.leb_spec NAME_SIZE (strlen cls_dev)) as [|Hi]; [done|].
  cbn [orb].
  erewrite bind_run by run_copy.
  erewrite bind_run by apply tdb_fetch_run. by rewrite Hm.
Qed.

Lemma sysfsdb_fetch_hit path r m :
  (strlen path < PATH_SIZE)%nat → m !! path = Some (SysfsData r) →
  sysfsdb_fetch path (World m []) = Some (Some r, World m []).
Proof.
  intros Hn Hm. unfold sysfsdb_fetch.
  rewrite (proj2 (Nat.leb_gt _ _) Hn).
  erewrite bind_run by run_copy.
  erewrite bind_run by apply tdb_fetch_run. rewrite Hm.
  erewrite bind_run by apply malloc_run. done.
Qed.

Lemma sysfsdb_fetch_long path w :
  (PATH_SIZE ≤ strlen path)%nat → sysfsdb_fetch path w = Some (None, w).
Proof.
  intros Hn. unfold sysfsdb_fetch. by apply Nat.leb_le in Hn as ->.
Qed.

Lemma udevdb_get_udevice_hit name r m :
  (strlen name < NAME_SIZE)%nat → m !! name = Some (NameData r) →
  udevdb_get_udevice (Some name) (World m []) =
  Some (Some {| dev_name := name;
                dev_sysfs_dev_path := nrec_sysfs_dev_path r;
                dev_class_dev_name := nrec_class_dev_name r;
                dev_class_name := nrec_class_name r;
                dev_bus_id := nrec_id r;
                dev_bus_name := nrec_bus r;
                dev_driver := None;
                dev_type := nrec_type r;
                dev_major := nrec_major r;
                dev_minor := nrec_minor r;
                dev_mode := nrec_mode r |}, World m []).
Proof.
  intros Hn Hm. unfold udevdb_get_udevice.
  erewrite bind_run by (by apply namedb_fetch_hit). cbv beta iota.
  erewrite bind_run by apply malloc_run. done.
Qed.

Lemma udevdb_get_udevice_miss name m :
  m !! name = None →
  udevdb_get_udevice (Some name) (World m []) = Some (None, World m []).
Proof.
  intros Hm. unfold udevdb_get_udevice.
  erewrite bind_run by (by apply namedb_fetch_miss). done.
Qed.

Lemma udevdb_get_udevice_by_bus_miss bus id m :
  (strlen UDEVDB_DEL ≤ 3)%nat → m !! key2 bus id = None →
  udevdb_get_udevice_by_bus (Some bus) (Some id) (World m [])
  = Some (None, World m []).
Proof.
  intros Hd Hm. unfold udevdb_get_udevice_by_bus.
  by erewrite bind_run by (by apply busdb_fetch_miss).
Qed.

Lemma udevdb_get_udevice_by_bus_hit bus id r m :
  (strlen UDEVDB_DEL ≤ 3)%nat →
  (strlen bus < BUS_SIZE)%nat → (strlen id < ID_SIZE)%nat →
  m !! key2 bus id = Some (BusData r) →
  udevdb_get_udevice_by_bus (Some bus) (Some id) (World m [])
  = udevdb_get_udevice (Some (busdb_name r)) (World m []).
Proof.
  intros Hd Hb Hi Hm. unfold udevdb_get_udevice_by_bus.
  by erewrite bind_run by (by apply busdb_fetch_hit).
Qed.

Lemma udevdb_get_udevice_by_class_miss cls cls_dev m :
  (strlen UDEVDB_DEL ≤ 3)%nat → m !! key2 cls cls_dev = None →
  udevdb_get_udevice_by_class (Some cls) (Some cls_dev) (World m [])
  = Some (None, World m []).
Proof.
  intros Hd Hm. unfold udevdb_get_udevice_by_class.
  by erewrite bind_run by (by apply classdb_fetch_miss).
Qed.

Lemma udevdb_get_udevice_by_class_hit cls cls_dev r m :
  (strlen UDEVDB_DEL ≤ 3)%nat →
  (strlen cls < NAME_SIZE)%nat → (strlen cls_dev < NAME_SIZE)%nat →
  m !! key2 cls cls_dev = Some (ClassData r) →
  udevdb_get_udevice_by_class (Some cls) (Some cls_dev) (World m [])
  = udevdb_get_udevice (Some (classdb_name r)) (World m []).
Proof.
  intros Hd Hb Hi Hm. unfold udevdb_get_udevice_by_class.
  by erewrite bind_run by (by apply classdb_fetch_hit).
Qed.

Lemma busdb_fetch_read bus id d r m :
  (strlen UDEVDB_DEL ≤ 3)%nat →
  (strlen bus < BUS_SIZE)%nat → (strlen id < ID_SIZE)%nat →
  m !! key2 bus id = Some d → as_busdb_record d = Some r →
  busdb_fetch (Some bus) (Some id) (World m []) = Some (Some r, World m []).
Proof.
  intros Hd Hb Hi Hm Hr. unfold busdb_fetch.
  rewrite (proj2 (Nat.leb_gt _ _) Hb), (proj2 (Nat.leb_gt _ _) Hi).
  cbn [orb].
  erewrite bind_run by run_copy.
  erewrite bind_run by apply tdb_fetch_run. rewrite Hm.
  erewrite bind_run by apply malloc_run. by rewrite Hr.
Qed.

Lemma classdb_fetch_read cls cls_dev d r m :
  (strlen UDEVDB_DEL ≤ 3)%nat →
  (strlen cls < NAME_SIZE)%nat → (strlen cls_dev < NAME_SIZE)%nat →
  m !! key2 cls cls_dev = Some d → as_classdb_record d = Some r →
  classdb_fetch (Some cls) (Some cls_dev) (World m [])
  = Some (Some r, World m []).
Proof.
  intros Hd Hb Hi Hm Hr. unfold classdb_fetch.
  rewrite (proj2 (Nat.leb_gt _ _) Hb), (proj2 (Nat.leb_gt _ _) Hi).
  cbn [orb].
  erewrite bind_run by run_copy.
  erewrite bind_run by apply tdb_fetch_run. rewrite Hm.
  erewrite bind_run by apply malloc_run. by rewrite Hr.
Qed.

Lemma udevdb_get_udevice_by_bus_read bus id d r m :
  (strlen UDEVDB_DEL ≤ 3)%nat →
  (strlen bus < BUS_SIZE)%nat → (strlen id < ID_SIZE)%nat →
  m !! key2 bus id = Some d → as_busdb_record d = Some r →
  udevdb_get_udevice_by_bus (Some bus) (Some id) (World m [])
  = udevdb_get_udevice (Some (busdb_name r)) (World m []).
Proof.
  intros Hd Hb Hi Hm Hr. unfold udevdb_get_udevice_by_bus.
  by erewrite bind_run by (by eapply busdb_fetch_read).
Qed.

Lemma udevdb_get_udevice_by_class_read cls cls_dev d r m :
  (strlen UDEVDB_DEL ≤ 3)%nat →
  (strlen cls < NAME_SIZE)%nat → (strlen cls_dev < NAME_SIZE)%nat →
  m !! key2 cls cls_dev = Some d → as_classdb_record d = Some r →
  udevdb_get_udevice_by_class (Some cls) (Some cls_dev) (World m [])
  = udevdb_get_udevice (Some (classdb_name r)) (World m []).
Proof.
  intros Hd Hb Hi Hm Hr. unfold udevdb_get_udevice_by_class.
  by erewrite bind_run by (by eapply classdb_fetch_read).
Qed.

Lemma udevdb_get_udevice_by_sysfs_hit path r m :
  (strlen path < PATH_SIZE)%nat → m !! path = Some (SysfsData r) →
  udevdb_get_udevice_by_sysfs (Some path) (World m [])
  = Some (Some (sysfsdb_name r), World m []).
Proof.
  intros Hp Hm. unfold udevdb_get_udevice_by_sysfs.
  by erewrite bind_run by (by apply sysfsdb_fetch_hit).
Qed.

(** *** Deletions with no fault ahead *)

Lemma busdb_delete_run bus id m :
  (strlen UDEVDB_DEL ≤ 3)%nat →
  (strlen bus < BUS_SIZE)%nat → (strlen id < ID_SIZE)%nat →
  busdb_delete (Some bus) (Some id) (World m []) =
  Some (if m !! key2 bus id is Some _ then 0 else -1,
        World (delete (key2 bus id) m) []).
Proof.
  intros Hd Hb Hi. unfold busdb_delete.
  rewrite (proj2 (Nat.leb_gt _ _) Hb), (proj2 (Nat.leb_gt _ _) Hi).
  cbn [orb].
  erewrite bind_run by run_copy. apply tdb_delete_run.
Qed.

Lemma classdb_delete_run cls cls_dev m :
  (strlen UDEVDB_DEL ≤ 3)%nat →
  (strlen cls < NAME_SIZE)%nat → (strlen cls_dev < NAME_SIZE)%nat →
  classdb_delete (Some cls) (Some cls_dev) (World m []) =
  Some (if m !! key2 cls cls_dev is Some _ then 0 else -1,
        World (delete (key2 cls cls_dev) m) []).
Proof.
  intros Hd Hb Hi. unfold classdb_delete.
  rewrite (proj2 (Nat.leb_gt _ _) Hb), (proj2 (Nat.leb_gt _ _) Hi).
  cbn [orb].
  erewrite bind_run by run_copy. apply tdb_delete_run.
Qed.

Lemma namedb_delete_run name m :
  (strlen name < NAME_SIZE)%nat →
  namedb_delete (Some name) (World m []) =
  Some (if m !! name is Some _ then 0 else -1, World (delete name m) []).
Proof.
  intros Hn. unfold namedb_delete.
  rewrite (proj2 (Nat.leb_gt _ _) Hn).
  erewrite bind_run by run_copy. apply tdb_delete_run.
Qed.

(** [udevdb_delete_udevice] removes the bus, class and name keys of the
    record it fetched, and nothing else. *)
Lemma udevdb_delete_udevice_run name r m :
  (strlen UDEVDB_DEL ≤ 3)%nat →
  (strlen name < NAME_SIZE)%nat →
  m !! name = Some (NameData r) →
  (strlen (nrec_bus r) < BUS_SIZE)%nat →
  (strlen (nrec_id r) < ID_SIZE)%nat →
  (strlen (nrec_class_name r) < NAME_SIZE)%nat →
  (strlen (nrec_class_dev_name r) < NAME_SIZE)%nat →
  udevdb_delete_udevice (Some name) (World m []) =
  Some (0, World (delete name
                   (delete (key2 (nrec_class_name r) (nrec_class_dev_name r))
                     (delete (key2 (nrec_bus r) (nrec_id r)) m))) []).
Proof.
  intros Hd Hn Hm Hb Hi Hc Hcd. unfold udevdb_delete_udevice.
  erewrite bind_run by (by apply namedb_fetch_hit). cbv beta iota.
  erewrite bind_run by (by apply busdb_delete_run).
  erewrite bind_run by (by apply classdb_delete_run).
  erewrite bind_run by (by apply namedb_delete_run).
  done.
Qed.

(** *** Reading a successful run backwards *)

Lemma bind_Some_inv {A B} (c : M A) (k : A → M B) w b w'' :
  bind c k w = Some (b, w'') →
  ∃ a w', c w = Some (a, w') ∧ k a w' = Some (b, w'').
Proof.
  unfold bind. destruct (c w) as [[a w']|]; [|done]. intros H. by exists a, w'.
Qed.

Lemma strcpy_inv cap s w s' w' :
  strcpy cap s w = Some (s', w') → s' = s ∧ w' = w.
Proof.
  rewrite strcpy_run. destruct (strlen s <? cap)%nat; [|done].
  by intros [= <- <-].
Qed.

Lemma strncpy_inv n src w s w' :
  strncpy n src w = Some (s, w') → src = Some s ∧ w' = w.
Proof.
  destruct src as [s0|]; [|done]. rewrite strncpy_run.
  destruct (strlen s0 <? n)%nat; [|done]. by intros [= <- <-].
Qed.

Lemma strncpy_Some_inv n s w s' w' :
  strncpy n (Some s) w = Some (s', w') → s' = s ∧ w' = w.
Proof. intros H. by apply strncpy_inv in H as [[= ->] ->]. Qed.

Lemma keystr2_inv cap a b w k w' :
  keystr2 cap a b w = Some (k, w') → k = key2 a b ∧ w' = w.
Proof.
  rewrite keystr2_run. destruct (strlen (key2 a b) <? cap)%nat; [|done].
  by intros [= <- <-].
Qed.

Lemma tdb_store_inv0 k d w w' :
  tdb_store k d w = Some (0, w') → tdb_map w' = <[k := d]> (tdb_map w).
Proof.
  destruct w as [m fs]. rewrite tdb_store_run.
  destruct fs as [|[] fs]; cbn [pop_fault fst snd]; by intros [= <-].
Qed.

Ltac inv_bind H E :=
  let a := fresh "a" in
  let w := fresh "w" in
  apply bind_Some_inv in H as (a & w & E & H).

Ltac inv_copy E :=
  first [ apply strcpy_inv in E as [-> ->]
        | apply strncpy_Some_inv in E as [-> ->]
        | apply strncpy_inv in E as [-> ->]
        | apply keystr2_inv in E as [-> ->] ].

Ltac inv_bind_copy H :=
  let E := fresh "E" in inv_bind H E; inv_copy E.

Lemma busdb_store_inv0 dev w w' :
  busdb_store (Some dev) w = Some (0, w') →
  tdb_map w' = <[key2 (dev_bus_name dev) (dev_bus_id dev)
                 := BusData (Busdb_record (dev_name dev))]> (tdb_map w).
Proof.
  unfold busdb_store. intros H.
  inv_bind_copy H. inv_bind_copy H.
  by apply tdb_store_inv0.
Qed.

Lemma classdb_store_inv0 dev w w' :
  classdb_store (Some dev) w = Some (0, w') →
  tdb_map w' = <[key2 (dev_class_name dev) (dev_class_dev_name dev)
                 := ClassData (Classdb_record (dev_name dev))]> (tdb_map w).
Proof.
  unfold classdb_store. intros H.
  inv_bind_copy H. inv_bind_copy H.
  by apply tdb_store_inv0.
Qed.

Lemma sysfs_store_inv0 path dev w w' :
  sysfs_store path (Some dev) w = Some (0, w') →
  ∃ p, path = Some p ∧
       tdb_map w' = <[p := SysfsData (Sysfsdb_record (dev_name dev))]>
                      (tdb_map w).
Proof.
  unfold sysfs_store. destruct path as [p|]; [|done]. intros H.
  inv_bind_copy H. inv_bind_copy H.
  exists p. split; [done|]. by apply tdb_store_inv0.
Qed.

Lemma namedb_store_inv0 dev w w' :
  namedb_store (Some dev) w = Some (0, w') →
  ∃ drv, dev_driver dev = Some drv ∧
    tdb_map w' =
    <[dev_name dev :=
        NameData {| nrec_sysfs_dev_path := dev_sysfs_dev_path dev;
                    nrec_class_dev_name := dev_class_dev_name dev;
                    nrec_class_name := dev_class_name dev;
                    nrec_bus := dev_bus_name dev;
                    nrec_id := dev_bus_id dev;
                    nrec_driver := drv;
                    nrec_type := dev_type dev;
                    nrec_major := dev_major dev;
                    nrec_minor := dev_minor dev;
                    nrec_mode := dev_mode dev |}]> (tdb_map w).
Proof.
  unfold namedb_store. intros H.
  do 6 inv_bind_copy H.
  destruct (dev_driver dev) as [drv|]; [|by inv_bind H E].
  inv_bind_copy H.
  exists drv. split; [done|]. by apply tdb_store_inv0.
Qed.

(** A call of [udevdb_add_device] that returns 0 has made its four
    writes, whatever the constants and the faults. *)
Lemma udevdb_add_device_inv0 device class_dev name type major minor mode w w' :
  udevdb_add_device device class_dev name type major minor mode w
  = Some (0, w') →
  ∃ dv cd nm, device = Some dv ∧ class_dev = Some cd ∧ name = Some nm ∧
    tdb_map w' =
    apply_writes (add_writes dv cd nm type major minor mode) (tdb_map w).
Proof.
  unfold udevdb_add_device. destruct class_dev as [cd|]; [|done].
  intros H. inv_bind_copy H.
  apply bind_Some_inv in H as (sys & ws & Esys & H).
  assert (sys = (sys_path cd, sys_bus_id cd) ∧ ws = w) as [-> ->].
  { unfold sys_path, sys_bus_id.
    destruct (cd_sysdevice cd) as [sd|].
    - inv_bind_copy Esys. inv_bind_copy Esys. by injection Esys as <- <-.
    - by injection Esys as <- <-. }
  clear Esys. inv_bind_copy H.
  apply bind_Some_inv in H as (drv & wd & Edrv & H).
  assert (drv = driver_name cd ∧ wd = w) as [-> ->].
  { unfold driver_name. destruct (cd_driver cd) as [d|].
    - by inv_copy Edrv.
    - by injection Edrv as <- <-. }
  clear Edrv. cbn [fst snd] in H.
  apply bind_Some_inv in H as (r1 & w1 & Eb & H).
  destruct (Z.eqb_spec r1 0) as [->|]; [|done].
  apply busdb_store_inv0 in Eb. cbn [negb] in H.
  apply bind_Some_inv in H as (r2 & w2 & Ec & H).
  destruct (Z.eqb_spec r2 0) as [->|]; [|done].
  apply classdb_store_inv0 in Ec. cbn [negb] in H.
  apply bind_Some_inv in H as (r3 & w3 & Es & H).
  destruct (Z.eqb_spec r3 0) as [->|]; [|done].
  apply sysfs_store_inv0 in Es as (dv & -> & Es). cbn [negb] in H.
  apply bind_Some_inv in H as (r4 & w4 & En & H).
  destruct (Z.eqb_spec r4 0) as [->|]; [|done].
  apply namedb_store_inv0 in En as (d & [= <-] & En). cbn [negb] in H.
  injection H as <-.
  match goal with
  | |- ∃ dv' cd' nm, _ = _ ∧ _ = _ ∧ Some ?a = Some nm ∧ _ =>
      exists dv, cd, a
  end.
  repeat split; try done.
  cbn [dev_name dev_sysfs_dev_path dev_class_dev_name dev_class_name
       dev_bus_id dev_bus_name dev_type dev_major dev_minor dev_mode] in *.
  unfold add_writes, added_record; cbn [apply_writes].
  by rewrite En, Es, Ec, Eb.
Qed.

(** *** The chain of writes *)

Lemma run_writes_no_fault ws m :
  run_writes ws m [] = (0, World (apply_writes ws m) []).
Proof.
  revert m. induction ws as [|[k d] ws IH]; intros m; [done|]. apply IH.
Qed.

Lemma run_writes_fault_at ws m k rest :
  (k < length ws)%nat →
  run_writes ws m (replicate k false ++ true :: rest) =
  (-1, World (apply_writes (take k ws) m) rest).
Proof.
  revert m k. induction ws as [|[key d] ws IH]; intros m k Hk; simpl in Hk;
    [lia|].
  destruct k as [|k]; [done|]. cbn. apply IH. lia.
Qed.

(** *** Deletions always return *)

Lemma tdb_delete_total k w : ∃ r w', tdb_delete k w = Some (r, w').
Proof.
  destruct w as [m [|[] fs]]; unfold tdb_delete, bind, next_fault; simpl;
    try destruct (m !! k); eauto.
Qed.

Lemma busdb_delete_total bus id w :
  (strlen UDEVDB_DEL ≤ 3)%nat →
  ∃ r w', busdb_delete (Some bus) (Some id) w = Some (r, w').
Proof.
  intros Hd. unfold busdb_delete.
  destruct (Nat.leb_spec BUS_SIZE (strlen bus)); [by eexists _, _|].
  destruct (Nat.leb_spec ID_SIZE (strlen id)); [by eexists _, _|].
  cbn [orb]. erewrite bind_run by run_copy. apply tdb_delete_total.
Qed.

Lemma classdb_delete_total cls cls_dev w :
  (strlen UDEVDB_DEL ≤ 3)%nat →
  ∃ r w', classdb_delete (Some cls) (Some cls_dev) w = Some (r, w').
Proof.
  intros Hd. unfold classdb_delete.
  destruct (Nat.leb_spec NAME_SIZE (strlen cls)); [by eexists _, _|].
  destruct (Nat.leb_spec NAME_SIZE (strlen cls_dev)); [by eexists _, _|].
  cbn [orb]. erewrite bind_run by run_copy. apply tdb_delete_total.
Qed.

Lemma namedb_delete_total name w :
  ∃ r w', namedb_delete (Some name) w = Some (r, w').
Proof.
  unfold namedb_delete.
  destruct (Nat.leb_spec NAME_SIZE (strlen name)); [by eexists _, _|].
  erewrite bind_run by run_copy. apply tdb_delete_total.
Qed.

End Runs.

(** *** Computations that only read *)

Lemma read_only_ret {A} (a : A) : read_only (ret a).
Proof. by intros w a' w' [= _ <-]. Qed.

Lemma read_only_undefined {A} : read_only (@undefined A).
Proof. by intros w a w'. Qed.

Lemma read_only_bind {A B} (c : M A) (k : A → M B) :
  read_only c → (∀ a, read_only (k a)) → read_only (bind c k).
Proof.
  intros Hc Hk w b w'' H. apply bind_Some_inv in H as (a & w' & H1 & H2).
  rewrite (Hk _ _ _ _ H2). by apply (Hc _ _ _ H1).
Qed.

Lemma read_only_next_fault : read_only next_fault.
Proof.
  intros [m fs] f w'. unfold next_fault. cbn [faults tdb_map].
  destruct (pop_fault fs). by intros [= _ <-].
Qed.

Lemma read_only_tdb_fetch k : read_only (tdb_fetch k).
Proof.
  apply read_only_bind; [apply read_only_next_fault|].
  intros []; [apply read_only_ret|]. by intros w a w' [= _ <-].
Qed.

Lemma read_only_malloc : read_only malloc.
Proof.
  apply read_only_bind; [apply read_only_next_fault|].
  intros f. apply read_only_ret.
Qed.

Lemma read_only_strcpy cap s : read_only (strcpy cap s).
Proof. intros w a w' H. by apply strcpy_inv in H as [_ ->]. Qed.

Lemma read_only_keystr2 `{L : limits} cap a b : read_only (keystr2 cap a b).
Proof. intros w k w' H. by apply keystr2_inv in H as [_ ->]. Qed.

Ltac read_only_step :=
  first [ apply read_only_ret
        | apply read_only_undefined
        | apply read_only_tdb_fetch
        | apply read_only_malloc
        | apply read_only_strcpy
        | apply read_only_keystr2
        | apply read_only_bind; [|intros ?]
        | match goal with
          | |- read_only (match ?x with _ => _ end) => destruct x
          end ].

Section ReadOnly.
Context {L : limits}.

Lemma read_only_namedb_fetch name : read_only (namedb_fetch name).
Proof. unfold namedb_fetch. repeat read_only_step. Qed.

Lemma read_only_busdb_fetch bus id : read_only (busdb_fetch bus id).
Proof. unfold busdb_fetch. repeat read_only_step. Qed.

Lemma read_only_classdb_fetch cls cls_dev :
  read_only (classdb_fetch cls cls_dev).
Proof. unfold classdb_fetch. repeat read_only_step. Qed.

Lemma read_only_sysfsdb_fetch path : read_only (sysfsdb_fetch path).
Proof. unfold sysfsdb_fetch. repeat read_only_step. Qed.

Lemma read_only_udevdb_get_udevice name : read_only (udevdb_get_udevice name).
Proof.
  unfold udevdb_get_udevice. destruct name; [|apply read_only_ret].
  apply read_only_bind; [apply read_only_namedb_fetch|].
  intros ?. repeat read_only_step.
Qed.

End ReadOnly.

(** *** The map after the four writes *)

Section Added.
Context {L : limits}.
Implicit Types (m : gmap string tdb_data) (cd : sysfs_class_device).

Lemma added_lookup_name device cd name type major minor mode m :
  apply_writes (add_writes device cd name type major minor mode) m !! name
  = Some (NameData (added_record cd type major minor mode)).
Proof. unfold add_writes; cbn [apply_writes]. apply lookup_insert_eq. Qed.

Lemma added_lookup_path device cd name type major minor mode m :
  device ≠ name →
  apply_writes (add_writes device cd name type major minor mode) m !! device
  = Some (SysfsData (Sysfsdb_record name)).
Proof.
  intros Hne. unfold add_writes; cbn [apply_writes].
  rewrite lookup_insert_ne by done. apply lookup_insert_eq.
Qed.



(** The value under the bus key after the four writes: the bus entry,
    or the class or path entry written over it; read as a bus record it
    holds the name in each case. *)
Lemma added_bus_key_reads_name device cd name type major minor mode m :
  (NAME_SIZE ≤ PATH_SIZE)%nat → (strlen name < NAME_SIZE)%nat →
  key2 "unknown" (sys_bus_id cd) ≠ name →
  ∃ d, apply_writes (add_writes device cd name type major minor mode) m
         !! key2 "unknown" (sys_bus_id cd) = Some d
       ∧ as_busdb_record d = Some (Busdb_record name).
Proof.
  intros Hp Hn Hk. unfold add_writes; cbn [apply_writes].
  rewrite lookup_insert_ne by done.
  rewrite !lookup_insert. repeat case_decide; try congruence;
    eexists; (split; [done|]);
    cbn [as_busdb_record sysfsdb_name classdb_name]; try done.
  by rewrite (proj2 (Nat.leb_le _ _) Hp), (proj2 (Nat.ltb_lt _ _) Hn).
Qed.

Lemma added_class_key_reads_name device cd name type major minor mode m :
  (NAME_SIZE ≤ PATH_SIZE)%nat → (strlen name < NAME_SIZE)%nat →
  key2 EmptyString (cd_name cd) ≠ name →
  ∃ d, apply_writes (add_writes device cd name type major minor mode) m
         !! key2 EmptyString (cd_name cd) = Some d
       ∧ as_classdb_record d = Some (Classdb_record name).
Proof.
  intros Hp Hn Hk. unfold add_writes; cbn [apply_writes].
  rewrite lookup_insert_ne by done.
  rewrite !lookup_insert. repeat case_decide; try congruence;
    eexists; (split; [done|]);
    cbn [as_classdb_record sysfsdb_name busdb_name]; try done.
  by rewrite (proj2 (Nat.leb_le _ _) Hp), (proj2 (Nat.ltb_lt _ _) Hn).
Qed.

Lemma sys_bus_id_bound device cd name :
  limits_ok → add_args_ok device cd name → (strlen (sys_bus_id cd) < ID_SIZE)%nat.
Proof.
  intros (_ & _ & Hi & _) (_ & _ & _ & Hs & _). unfold sys_bus_id.
  destruct (cd_sysdevice cd); [by destruct Hs | done].
Qed.

(** A descriptor that is valid in the sense of the specification reaches
    [udevdb_add_device] with arguments within bounds. *)
Lemma spec_valid_args_ok (D : descriptor) :
  spec_valid D → add_args_ok (d_path D) (class_dev_of D) (d_name D).
Proof.
  intros (Hn & _ & Hi & _ & Hcd & Hp & Hd).
  unfold add_args_ok, class_dev_of;
    cbn [cd_name cd_sysdevice cd_driver sd_directory sd_bus_id dir_path].
  repeat split; try lia.
  by destruct (d_driver D).
Qed.

End Added.

(** *** Keys and the delimiter *)

Lemma strapp_nil (s : string) : EmptyString +:+ s = s.
Proof. reflexivity. Qed.

Lemma strapp_cons (x : ascii) (a s : string) :
  String x a +:+ s = String x (a +:+ s).
Proof. reflexivity. Qed.

Lemma strapp_assoc (a b c : string) : (a +:+ b) +:+ c = a +:+ (b +:+ c).
Proof.
  induction a as [|x a IH]; [done|]. rewrite !strapp_cons. by f_equal.
Qed.

Lemma occurs_false_cons c x s :
  occurs c (String x s) = false → c ≠ x ∧ occurs c s = false.
Proof.
  simpl. destruct (Ascii.eqb_spec c x); [done | by intros ->].
Qed.

Lemma app_delim_inj c a a' t t' :
  occurs c a = false → occurs c a' = false →
  a +:+ String c t = a' +:+ String c t' → a = a' ∧ t = t'.
Proof.
  revert a'. induction a as [|x a IH]; intros [|x' a'] Ha Ha' E;
    rewrite ?strapp_nil, ?strapp_cons in E.
  - by injection E as ->.
  - injection E as -> _. apply occurs_false_cons in Ha' as [? _]. done.
  - injection E as -> _. apply occurs_false_cons in Ha as [? _]. done.
  - injection E as -> E.
    apply occurs_false_cons in Ha as [_ Ha].
    apply occurs_false_cons in Ha' as [_ Ha'].
    destruct (IH a' Ha Ha' E) as [-> ->]. done.
Qed.

(** ** The claims *)

Section Claims.
Context {L : limits}.
Implicit Types (m : gmap string tdb_data) (cd : sysfs_class_device).

(** C1 (amended): with every argument within its bound and no fault,
    [udevdb_add_device] returns 0 and [udevdb_get_udevice] of the same name
    then returns a record that carries the name, the path and bus id of
    the sysdevice (empty when there is none), the class device name, the
    type, major, minor and mode of the call, with bus name "unknown" and
    an empty class name.  The driver of the returned record is left out. *)
Theorem C1_add_then_get_by_name device cd name type major minor mode m :
  limits_ok → add_args_ok device cd name →
  ∃ m' r,
    udevdb_add_device (Some device) (Some cd) (Some name)
                      type major minor mode (World m [])
    = Some (0, World m' [])
    ∧ udevdb_get_udevice (Some name) (World m' [])
      = Some (Some r, World m' [])
    ∧ dev_name r = name
    ∧ dev_sysfs_dev_path r = sys_path cd
    ∧ dev_class_dev_name r = cd_name cd
    ∧ dev_class_name r = EmptyString
    ∧ dev_bus_name r = "unknown"%string
    ∧ dev_bus_id r = sys_bus_id cd
    ∧ dev_type r = type
    ∧ dev_major r = major ∧ dev_minor r = minor ∧ dev_mode r = mode.
Proof.
  intros HL HA.
  rewrite udevdb_add_device_run, run_writes_no_fault by done.
  eexists _, _. split; [reflexivity|]. split.
  - apply udevdb_get_udevice_hit; [apply HA | apply added_lookup_name].
  - by repeat split.
Qed.

(** C2: after [udevdb_add_device] and [udevdb_delete_udevice] of the same
    name (no fault, the path key different from the other three keys),
    the name, the bus key and the class key are gone, but the path entry
    is still there: [udevdb_get_udevice_by_sysfs] of the path returns the
    deleted name. *)
Theorem C2_delete_leaves_path_entry device cd name type major minor mode m :
  limits_ok → add_args_ok device cd name →
  (strlen device < PATH_SIZE)%nat →
  device ≠ name →
  device ≠ key2 "unknown" (sys_bus_id cd) →
  device ≠ key2 EmptyString (cd_name cd) →
  ∃ m1 m2,
    udevdb_add_device (Some device) (Some cd) (Some name)
                      type major minor mode (World m [])
    = Some (0, World m1 [])
    ∧ udevdb_delete_udevice (Some name) (World m1 []) = Some (0, World m2 [])
    ∧ udevdb_get_udevice (Some name) (World m2 [])
      = Some (None, World m2 [])
    ∧ udevdb_get_udevice_by_bus (Some "unknown"%string)
        (Some (sys_bus_id cd)) (World m2 []) = Some (None, World m2 [])
    ∧ udevdb_get_udevice_by_class (Some EmptyString)
        (Some (cd_name cd)) (World m2 []) = Some (None, World m2 [])
    ∧ udevdb_get_udevice_by_sysfs (Some device) (World m2 [])
      = Some (Some name, World m2 []).
Proof.
  intros HL HA Hdev Hn Hb Hc.
  pose proof (sys_bus_id_bound _ _ _ HL HA) as Hid.
  pose proof HL as (HB & HN & HI & HP & HD).
  pose proof HA as (An & Adev & Acd & Asys & Adrv).
  rewrite udevdb_add_device_run, run_writes_no_fault by done.
  eexists _, _. split; [reflexivity|]. split.
  { erewrite udevdb_delete_udevice_run;
      [reflexivity | done | done | apply added_lookup_name
       | simpl; lia | done | simpl; lia | done]. }
  cbn [added_record nrec_bus nrec_id nrec_class_name nrec_class_dev_name].
  split; [|split; [|split]].
  - apply udevdb_get_udevice_miss, lookup_delete_eq.
  - apply udevdb_get_udevice_by_bus_miss; [done|].
    rewrite !lookup_delete. by repeat case_decide.
  - apply udevdb_get_udevice_by_class_miss; [done|].
    rewrite !lookup_delete. by repeat case_decide.
  - rewrite (udevdb_get_udevice_by_sysfs_hit _ (Sysfsdb_record name));
      [done | done |].
    rewrite !lookup_delete_ne by done. by apply added_lookup_path.
Qed.

(** C3: a path of [PATH_SIZE] or [PATH_SIZE + 1] characters, at or above
    its maximum, is not rejected.  [udevdb_add_device] returns 0, the path
    entry is stored under the whole path and the name record is there;
    [udevdb_get_udevice_by_sysfs], which does test the length, then
    cannot find the entry. *)
Theorem C3_overlong_path_is_stored device cd name type major minor mode m :
  limits_ok → add_args_ok device cd name →
  (PATH_SIZE ≤ strlen device)%nat →
  ∃ m' r,
    udevdb_add_device (Some device) (Some cd) (Some name)
                      type major minor mode (World m [])
    = Some (0, World m' [])
    ∧ m' !! device = Some (SysfsData (Sysfsdb_record name))
    ∧ udevdb_get_udevice (Some name) (World m' [])
      = Some (Some r, World m' [])
    ∧ udevdb_get_udevice_by_sysfs (Some device) (World m' [])
      = Some (None, World m' []).
Proof.
  intros HL HA Hlong.
  pose proof HL as (HB & HN & HI & HP & HD).
  pose proof HA as (An & Adev & Acd & Asys & Adrv).
  rewrite udevdb_add_device_run, run_writes_no_fault by done.
  eexists _, _. split; [reflexivity|]. split; [|split].
  - apply added_lookup_path. intros ->. lia.
  - apply udevdb_get_udevice_hit; [done | apply added_lookup_name].
  - unfold udevdb_get_udevice_by_sysfs.
    by erewrite bind_run by (by apply sysfsdb_fetch_long).
Qed.

(** C4 (amended): when the write number [k + 1] of [udevdb_add_device]
    fails ([k] = 0, 1, 2, 3), the call returns -1 at once: the entries of
    the [k] writes before it stay in the store, the later ones are not
    attempted, and nothing is deleted. *)
Theorem C4_failed_write_keeps_earlier_entries
    device cd name type major minor mode m k rest :
  limits_ok → add_args_ok device cd name → (k < 4)%nat →
  udevdb_add_device (Some device) (Some cd) (Some name)
                    type major minor mode
                    (World m (replicate k false ++ true :: rest))
  = Some (-1, World (apply_writes
                       (take k (add_writes device cd name
                                           type major minor mode)) m)
                    rest).
Proof.
  intros HL HA Hk.
  rewrite udevdb_add_device_run by done.
  by rewrite run_writes_fault_at.
Qed.

(** C5 (amended): after [udevdb_add_device] (arguments within bounds, no
    fault, the bus key and the class key each different from the name),
    the lookup by bus "unknown" and the bus id, and the lookup by the
    empty class name and the class device name, each run as
    [udevdb_get_udevice] of the name does, and that returns a record. *)
Theorem C5_lookup_by_unknown_bus_and_empty_class
    device cd name type major minor mode m :
  limits_ok → add_args_ok device cd name →
  key2 "unknown" (sys_bus_id cd) ≠ name →
  key2 EmptyString (cd_name cd) ≠ name →
  ∃ m' r,
    udevdb_add_device (Some device) (Some cd) (Some name)
                      type major minor mode (World m [])
    = Some (0, World m' [])
    ∧ udevdb_get_udevice (Some name) (World m' [])
      = Some (Some r, World m' [])
    ∧ udevdb_get_udevice_by_bus (Some "unknown"%string)
        (Some (sys_bus_id cd)) (World m' [])
      = udevdb_get_udevice (Some name) (World m' [])
    ∧ udevdb_get_udevice_by_class (Some EmptyString)
        (Some (cd_name cd)) (World m' [])
      = udevdb_get_udevice (Some name) (World m' []).
Proof.
  intros HL HA Kb Kc.
  pose proof (sys_bus_id_bound _ _ _ HL HA) as Hid.
  pose proof HL as (HB & HN & HI & HP & HD).
  pose proof HA as (An & Adev & Acd & Asys & Adrv).
  rewrite udevdb_add_device_run, run_writes_no_fault by done.
  eexists _, _. split; [reflexivity|]. split; [|split].
  - apply udevdb_get_udevice_hit; [done | apply added_lookup_name].
  - destruct (added_bus_key_reads_name device cd name type major minor mode
                m HP An Kb) as (d & Hm & Hr).
    rewrite (udevdb_get_udevice_by_bus_read _ _ d (Busdb_record name));
      [done | done | simpl; lia | done | done | done].
  - destruct (added_class_key_reads_name device cd name type major minor mode
                m HP An Kc) as (d & Hm & Hr).
    rewrite (udevdb_get_udevice_by_class_read _ _ d (Classdb_record name));
      [done | done | simpl; lia | done | done | done].
Qed.

(** C6 (amended): when the delimiter is one character and it occurs in
    neither first part, two pairs of parts for which the code builds the
    same key are the same pair.  (The code itself admits parts that
    contain the delimiter.) *)
Theorem C6_keys_injective_without_delimiter
    c cap cap' a b a' b' w w' k w1 w1' :
  UDEVDB_DEL = String c EmptyString →
  occurs c a = false → occurs c a' = false →
  keystr2 cap a b w = Some (k, w1) →
  keystr2 cap' a' b' w' = Some (k, w1') →
  a = a' ∧ b = b'.
Proof.
  intros Hd Ha Ha' H1 H2.
  apply keystr2_inv in H1 as [-> _]. apply keystr2_inv in H2 as [E _].
  unfold key2 in E. rewrite Hd, !strapp_assoc, !strapp_cons, !strapp_nil in E.
  exact (app_delim_inj _ _ _ _ _ Ha Ha' E).
Qed.

(** C7 (amended): a lookup by bus or by class whose index entry names a
    device without a name record returns [NULL], exactly as it does when
    the index entry is absent; a lookup by path returns the name held by
    the path entry whether or not a name record exists. *)
Theorem C7_dangling_entry_reads_as_absent m :
  (strlen UDEVDB_DEL ≤ 3)%nat →
  (∀ bus id,
     (strlen bus < BUS_SIZE)%nat → (strlen id < ID_SIZE)%nat →
     m !! key2 bus id = None
     ∨ (∃ brec, m !! key2 bus id = Some (BusData brec)
                ∧ m !! busdb_name brec = None) →
     udevdb_get_udevice_by_bus (Some bus) (Some id) (World m [])
     = Some (None, World m []))
  ∧ (∀ cls cls_dev,
       (strlen cls < NAME_SIZE)%nat → (strlen cls_dev < NAME_SIZE)%nat →
       m !! key2 cls cls_dev = None
       ∨ (∃ crec, m !! key2 cls cls_dev = Some (ClassData crec)
                  ∧ m !! classdb_name crec = None) →
       udevdb_get_udevice_by_class (Some cls) (Some cls_dev) (World m [])
       = Some (None, World m []))
  ∧ (∀ path crec,
       (strlen path < PATH_SIZE)%nat →
       m !! path = Some (SysfsData crec) →
       udevdb_get_udevice_by_sysfs (Some path) (World m [])
       = Some (Some (sysfsdb_name crec), World m [])).
Proof.
  intros Hd. split; [|split].
  - intros bus id Hb Hi [Hm | (brec & Hm & Hn)].
    + by apply udevdb_get_udevice_by_bus_miss.
    + rewrite (udevdb_get_udevice_by_bus_hit _ _ brec) by done.
      by apply udevdb_get_udevice_miss.
  - intros cls cls_dev Hc Hcd [Hm | (crec & Hm & Hn)].
    + by apply udevdb_get_udevice_by_class_miss.
    + rewrite (udevdb_get_udevice_by_class_hit _ _ crec) by done.
      by apply udevdb_get_udevice_miss.
  - intros path crec Hp Hm. by apply udevdb_get_udevice_by_sysfs_hit.
Qed.

(** C8 (amended): once [namedb_fetch] has found the record of the name,
    [udevdb_delete_udevice] returns 0 whatever the three deletions
    return: a missing index entry and an engine failure in a deletion
    are both ignored, none is reported. *)
Theorem C8_delete_ignores_deletion_results name nrec w w1 :
  (strlen UDEVDB_DEL ≤ 3)%nat →
  namedb_fetch (Some name) w = Some (Some nrec, w1) →
  ∃ w', udevdb_delete_udevice (Some name) w = Some (0, w').
Proof.
  intros Hd Hf. unfold udevdb_delete_udevice.
  erewrite bind_run by exact Hf. cbv beta iota.
  destruct (busdb_delete_total (nrec_bus nrec) (nrec_id nrec) w1 Hd)
    as (r2 & w2 & E2).
  erewrite bind_run by exact E2.
  destruct (classdb_delete_total (nrec_class_name nrec)
              (nrec_class_dev_name nrec) w2 Hd) as (r3 & w3 & E3).
  erewrite bind_run by exact E3.
  destruct (namedb_delete_total name w3) as (r4 & w4 & E4).
  erewrite bind_run by exact E4.
  by exists w4.
Qed.

(** C9: whatever the store, the faults ahead and the arguments, a lookup
    by name, by bus, by class or by path that returns (a record, a name
    or [NULL]) leaves the key-value mapping as it was. *)
Theorem C9_lookups_leave_the_store_unchanged w w' :
  (∀ name r, udevdb_get_udevice name w = Some (r, w') →
             tdb_map w' = tdb_map w)
  ∧ (∀ bus id r, udevdb_get_udevice_by_bus bus id w = Some (r, w') →
                 tdb_map w' = tdb_map w)
  ∧ (∀ cls cls_dev r,
       udevdb_get_udevice_by_class cls cls_dev w = Some (r, w') →
       tdb_map w' = tdb_map w)
  ∧ (∀ path r, udevdb_get_udevice_by_sysfs path w = Some (r, w') →
               tdb_map w' = tdb_map w).
Proof.
  split; [|split; [|split]].
  - intros name r. apply read_only_udevdb_get_udevice.
  - intros bus id r. revert w r w'.
    change (read_only (udevdb_get_udevice_by_bus bus id)).
    unfold udevdb_get_udevice_by_bus.
    destruct bus, id; try apply read_only_ret.
    apply read_only_bind; [apply read_only_busdb_fetch|].
    intros []; [apply read_only_udevdb_get_udevice | apply read_only_ret].
  - intros cls cls_dev r. revert w r w'.
    change (read_only (udevdb_get_udevice_by_class cls cls_dev)).
    unfold udevdb_get_udevice_by_class.
    destruct cls, cls_dev; try apply read_only_ret.
    apply read_only_bind; [apply read_only_classdb_fetch|].
    intros []; [apply read_only_udevdb_get_udevice | apply read_only_ret].
  - intros path r. revert w r w'.
    change (read_only (udevdb_get_udevice_by_sysfs path)).
    unfold udevdb_get_udevice_by_sysfs.
    destruct path; [|apply read_only_ret].
    apply read_only_bind; [apply read_only_sysfsdb_fetch|].
    intros []; apply read_only_ret.
Qed.

(** C10: a call of [udevdb_add_device] that returns 0 leaves under the
    device name a record whose bus is "unknown" and whose class name is
    empty; the bus entry it wrote is keyed by "unknown" and the bus id,
    the class entry by the empty class name and the class device name. *)
Theorem C10_added_record_has_unknown_bus_and_empty_class
    device class_dev name type major minor mode w w' :
  udevdb_add_device device class_dev name type major minor mode w
  = Some (0, w') →
  ∃ dv cd nm r,
    device = Some dv ∧ class_dev = Some cd ∧ name = Some nm
    ∧ tdb_map w' !! nm = Some (NameData r)
    ∧ nrec_bus r = "unknown"%string
    ∧ nrec_class_name r = EmptyString
    ∧ tdb_map w' =
      <[nm := NameData r]>
        (<[dv := SysfsData (Sysfsdb_record nm)]>
           (<[key2 EmptyString (cd_name cd) := ClassData (Classdb_record nm)]>
              (<[key2 "unknown" (sys_bus_id cd) := BusData (Busdb_record nm)]>
                 (tdb_map w)))).
Proof.
  intros H.
  apply udevdb_add_device_inv0 in H as (dv & cd & nm & -> & -> & -> & Hm).
  exists dv, cd, nm, (added_record cd type major minor mode).
  rewrite Hm. repeat split; try done.
  apply added_lookup_name.
Qed.

End Claims.

(** ** The scenario of the specification, run *)

Section Scenario.
Local Existing Instance udev_limits.

Lemma udev_limits_ok : limits_ok.
Proof. repeat split; vm_compute; lia. Qed.

Lemma sda_args_ok : add_args_ok "/block/sda" (class_dev_of sda) "sda".
Proof. repeat split; vm_compute; lia. Qed.

Lemma sda_spec_valid : spec_valid sda.
Proof. repeat split; vm_compute; lia. Qed.

Example add_sda :
  add_device sda empty_world = Some (0, World sda_store []).
Proof. vm_compute. reflexivity. Qed.

Example get_sda :
  get_device_by_name "sda" (World sda_store [])
  = Some (Some sda_found, World sda_store []).
Proof. vm_compute. reflexivity. Qed.

Example path_sda :
  get_device_by_path "/block/sda" (World sda_store [])
  = Some (Some "sda"%string, World sda_store []).
Proof. vm_compute. reflexivity. Qed.

Example delete_sda :
  delete_device "sda" (World sda_store [])
  = Some (0, World {[ "/block/sda"%string
                      := SysfsData (Sysfsdb_record "sda") ]} []).
Proof. vm_compute. reflexivity. Qed.

(** C1, counterexample: [sda] is a valid descriptor and its name is not
    in the empty store, yet the record read back after the add is not its
    normalized form: the bus is "unknown" instead of "scsi", the class
    is empty instead of "block". *)
Lemma C1_sda_bus_and_class_are_not_preserved :
  spec_valid sda
  ∧ tdb_map empty_world !! d_name sda = None
  ∧ add_device sda empty_world = Some (0, World sda_store [])
  ∧ get_device_by_name (d_name sda) (World sda_store [])
    = Some (Some sda_found, World sda_store [])
  ∧ sda_found ≠ spec_normalized sda
  ∧ dev_bus_name sda_found ≠ d_bus sda
  ∧ dev_class_name sda_found ≠ d_class sda.
Proof.
  split; [apply sda_spec_valid|]. split; [done|].
  split; [apply add_sda|]. split; [apply get_sda|].
  by repeat split.
Qed.

(** C1, witness: the theorem at the add of [sda] to the empty store. *)
Lemma C1_witness :
  limits_ok ∧ add_args_ok "/block/sda" (class_dev_of sda) "sda"
  ∧ ∃ m' r,
      add_device sda empty_world = Some (0, World m' [])
      ∧ get_device_by_name "sda" (World m' []) = Some (Some r, World m' [])
      ∧ dev_bus_name r = "unknown"%string
      ∧ dev_class_name r = EmptyString.
Proof.
  split; [apply udev_limits_ok|]. split; [apply sda_args_ok|].
  destruct (C1_add_then_get_by_name "/block/sda" (class_dev_of sda) "sda"
              "b"%char 8 0 432 ∅ udev_limits_ok sda_args_ok)
    as (m' & r & Ha & Hg & _ & _ & _ & Hc & Hb & _).
  by exists m', r.
Defined.

(** C2, witness: the add and the delete of [sda]; the path lookup still
    answers "sda". *)
Lemma C2_witness :
  limits_ok ∧ add_args_ok "/block/sda" (class_dev_of sda) "sda"
  ∧ ∃ m1 m2,
      add_device sda empty_world = Some (0, World m1 [])
      ∧ delete_device "sda" (World m1 []) = Some (0, World m2 [])
      ∧ get_device_by_name "sda" (World m2 []) = Some (None, World m2 [])
      ∧ get_device_by_path "/block/sda" (World m2 [])
        = Some (Some "sda"%string, World m2 []).
Proof.
  split; [apply udev_limits_ok|]. split; [apply sda_args_ok|].
  destruct (C2_delete_leaves_path_entry "/block/sda" (class_dev_of sda) "sda"
              "b"%char 8 0 432 ∅ udev_limits_ok sda_args_ok)
    as (m1 & m2 & Ha & Hd & Hn & _ & _ & Hp);
    [vm_compute; lia | done | done | done |].
  by exists m1, m2.
Defined.

Lemma long_path_args_ok : add_args_ok long_path (class_dev_of sda) "sda".
Proof. repeat split; vm_compute; lia. Qed.

(** C3, witness: the add of "sda" under a path of 256 characters. *)
Lemma C3_witness :
  limits_ok ∧ add_args_ok long_path (class_dev_of sda) "sda"
  ∧ (PATH_SIZE ≤ strlen long_path)%nat
  ∧ ∃ m',
      udevdb_add_device (Some long_path) (Some (class_dev_of sda))
        (Some "sda"%string) "b"%char 8 0 432 empty_world
      = Some (0, World m' [])
      ∧ m' !! long_path = Some (SysfsData (Sysfsdb_record "sda"))
      ∧ get_device_by_path long_path (World m' [])
        = Some (None, World m' []).
Proof.
  assert (PATH_SIZE ≤ strlen long_path)%nat as Hlong by (vm_compute; lia).
  split; [apply udev_limits_ok|]. split; [apply long_path_args_ok|].
  split; [exact Hlong|].
  destruct (C3_overlong_path_is_stored long_path (class_dev_of sda) "sda"
              "b"%char 8 0 432 ∅ udev_limits_ok long_path_args_ok Hlong)
    as (m' & r & Ha & Hm & _ & Hp).
  by exists m'.
Defined.

(** C4, counterexample: the second write of the add of [sda] fails.  The
    call returns -1 and the bus entry of the first write is still in the
    store, while the class, path and name entries are not: some, but not
    all, of the four entries exist. *)
Lemma C4_sda_bus_entry_survives_failed_add :
  add_device sda (World ∅ [false; true])
  = Some (-1, World dangling_store [])
  ∧ dangling_store !! "unknown#0:0:0:0"%string
    = Some (BusData (Busdb_record "sda"))
  ∧ dangling_store !! "#sda"%string = None
  ∧ dangling_store !! "/block/sda"%string = None
  ∧ dangling_store !! "sda"%string = None.
Proof. repeat split; vm_compute; reflexivity. Qed.

(** C4, witness: the second write (k = 1) of the add of [sda] fails. *)
Lemma C4_witness :
  limits_ok ∧ add_args_ok "/block/sda" (class_dev_of sda) "sda"
  ∧ (1 < 4)%nat
  ∧ add_device sda (World ∅ (replicate 1 false ++ [true]))
    = Some (-1, World (apply_writes
                         (take 1 (add_writes "/block/sda" (class_dev_of sda)
                                    "sda" "b"%char 8 0 432)) ∅) []).
Proof.
  split; [apply udev_limits_ok|]. split; [apply sda_args_ok|].
  split; [lia|].
  apply (C4_failed_write_keeps_earlier_entries "/block/sda" (class_dev_of sda)
           "sda" "b"%char 8 0 432 ∅ 1 [] udev_limits_ok sda_args_ok).
  lia.
Defined.

(** C5, counterexample: after the add of [sda], the lookups by its bus
    ("scsi", "0:0:0:0") and by its class ("block", "sda") return [NULL],
    while the lookup by name returns the record. *)
Lemma C5_sda_is_not_found_by_its_bus_or_class :
  spec_valid sda
  ∧ add_device sda empty_world = Some (0, World sda_store [])
  ∧ get_device_by_name (d_name sda) (World sda_store [])
    = Some (Some sda_found, World sda_store [])
  ∧ get_device_by_bus (d_bus sda) (d_id sda) (World sda_store [])
    = Some (None, World sda_store [])
  ∧ get_device_by_class (d_class sda) (d_class_dev sda) (World sda_store [])
    = Some (None, World sda_store []).
Proof.
  split; [apply sda_spec_valid|]. split; [apply add_sda|].
  split; [apply get_sda|]. split; vm_compute; reflexivity.
Qed.


(** C5, witness: [sda] is found under bus "unknown" and the empty class. *)
Lemma C5_witness :
  limits_ok ∧ add_args_ok "/block/sda" (class_dev_of sda) "sda"
  ∧ key2 "unknown" "0:0:0:0" ≠ "sda"%string
  ∧ key2 EmptyString "sda" ≠ "sda"%string
  ∧ ∃ m' r,
      add_device sda empty_world = Some (0, World m' [])
      ∧ get_device_by_name "sda" (World m' []) = Some (Some r, World m' [])
      ∧ get_device_by_bus "unknown" "0:0:0:0" (World m' [])
        = get_device_by_name "sda" (World m' [])
      ∧ get_device_by_class EmptyString "sda" (World m' [])
        = get_device_by_name "sda" (World m' []).
Proof.
  assert (key2 "unknown" "0:0:0:0" ≠ "sda"%string) as Kb
    by (vm_compute; discriminate).
  assert (key2 EmptyString "sda" ≠ "sda"%string) as Kc
    by (vm_compute; discriminate).
  split; [apply udev_limits_ok|]. split; [apply sda_args_ok|].
  split; [exact Kb|]. split; [exact Kc|].
  apply (C5_lookup_by_unknown_bus_and_empty_class "/block/sda"
           (class_dev_of sda) "sda" "b"%char 8 0 432 ∅
           udev_limits_ok sda_args_ok Kb Kc).
Defined.

(** C6, counterexample: ("a#", "b") and ("a", "#b") are two pairs of
    non-empty parts within the bounds of a bus name and a bus id, and of
    a class name and a class device name, and the code builds the key
    "a##b" for both. *)
Lemma C6_two_pairs_one_key :
  (0 < strlen "a#" < BUS_SIZE ∧ 0 < strlen "b" < ID_SIZE
   ∧ 0 < strlen "a" < BUS_SIZE ∧ 0 < strlen "#b" < ID_SIZE)%nat
  ∧ ("a#", "b")%string ≠ ("a", "#b")%string
  ∧ keystr2 (BUS_SIZE + ID_SIZE + 2) "a#" "b" empty_world
    = Some ("a##b"%string, empty_world)
  ∧ keystr2 (BUS_SIZE + ID_SIZE + 2) "a" "#b" empty_world
    = Some ("a##b"%string, empty_world)
  ∧ keystr2 (NAME_SIZE + NAME_SIZE + 2) "a#" "b" empty_world
    = Some ("a##b"%string, empty_world)
  ∧ keystr2 (NAME_SIZE + NAME_SIZE + 2) "a" "#b" empty_world
    = Some ("a##b"%string, empty_world).
Proof.
  split; [vm_compute; lia|]. split; [discriminate|].
  repeat split; vm_compute; reflexivity.
Qed.

(** C6, witness: "#" does not occur in "scsi". *)
Lemma C6_witness :
  UDEVDB_DEL = String "#"%char EmptyString
  ∧ occurs "#"%char "scsi" = false
  ∧ keystr2 (BUS_SIZE + ID_SIZE + 2) "scsi" "0:0:0:0" empty_world
    = Some ("scsi#0:0:0:0"%string, empty_world)
  ∧ ("scsi"%string = "scsi"%string ∧ "0:0:0:0"%string = "0:0:0:0"%string).
Proof.
  assert (keystr2 (BUS_SIZE + ID_SIZE + 2) "scsi" "0:0:0:0" empty_world
          = Some ("scsi#0:0:0:0"%string, empty_world)) as Hk
    by (vm_compute; reflexivity).
  split; [reflexivity|]. split; [reflexivity|]. split; [exact Hk|].
  apply (C6_keys_injective_without_delimiter "#"%char
           (BUS_SIZE + ID_SIZE + 2) (BUS_SIZE + ID_SIZE + 2)
           "scsi" "0:0:0:0" "scsi" "0:0:0:0" empty_world empty_world
           "scsi#0:0:0:0" empty_world empty_world);
    [reflexivity | reflexivity | reflexivity | exact Hk | exact Hk].
Defined.

(** C7, counterexample: [dangling_store] has a bus entry that names "sda"
    and no record under "sda".  The lookup by bus returns [NULL], the
    very outcome it has in the empty store, where the entry is absent. *)
Lemma C7_dangling_bus_entry_returns_null :
  dangling_store !! "unknown#0:0:0:0"%string
  = Some (BusData (Busdb_record "sda"))
  ∧ dangling_store !! "sda"%string = None
  ∧ get_device_by_bus "unknown" "0:0:0:0" (World dangling_store [])
    = Some (None, World dangling_store [])
  ∧ get_device_by_bus "unknown" "0:0:0:0" empty_world
    = Some (None, empty_world).
Proof. repeat split; vm_compute; reflexivity. Qed.

(** C7, witness: the dangling bus entry of [dangling_store]. *)
Lemma C7_witness :
  (strlen UDEVDB_DEL ≤ 3)%nat
  ∧ get_device_by_bus "unknown" "0:0:0:0" (World dangling_store [])
    = Some (None, World dangling_store []).
Proof.
  assert (strlen UDEVDB_DEL ≤ 3)%nat as Hd by (vm_compute; lia).
  split; [exact Hd|].
  apply (proj1 (C7_dangling_entry_reads_as_absent dangling_store Hd)).
  - vm_compute; lia.
  - vm_compute; lia.
  - right. exists (Busdb_record "sda"). split; vm_compute; reflexivity.
Defined.

(** C8, counterexample: the record of "sda" is fetched, then the engine
    fails in the deletion of the bus entry.  [udevdb_delete_udevice]
    returns 0; the name record is gone and the bus entry that names it
    is still in the store. *)
Lemma C8_sda_failed_bus_deletion_returns_0 :
  ∃ m',
    delete_device "sda" (World sda_store [false; false; true])
    = Some (0, World m' [])
    ∧ m' !! "sda"%string = None
    ∧ m' !! "unknown#0:0:0:0"%string = Some (BusData (Busdb_record "sda")).
Proof.
  eexists. split; [vm_compute; reflexivity|].
  split; vm_compute; reflexivity.
Qed.

(** C8, witness: the delete of "sda" with the engine failing in the
    deletion of the bus entry. *)
Lemma C8_witness :
  (strlen UDEVDB_DEL ≤ 3)%nat
  ∧ namedb_fetch (Some "sda"%string) (World sda_store [false; false; true])
    = Some (Some sda_record, World sda_store [true])
  ∧ ∃ w', delete_device "sda" (World sda_store [false; false; true])
          = Some (0, w').
Proof.
  assert (strlen UDEVDB_DEL ≤ 3)%nat as Hd by (vm_compute; lia).
  assert (namedb_fetch (Some "sda"%string)
            (World sda_store [false; false; true])
          = Some (Some sda_record, World sda_store [true])) as Hf
    by (vm_compute; reflexivity).
  split; [exact Hd|]. split; [exact Hf|].
  exact (C8_delete_ignores_deletion_results _ _ _ _ Hd Hf).
Defined.

(** C9, witness: a lookup by class whose key holds the bus entry of
    "sda"; the entry is read as a class record and the record is found. *)
Lemma C9_witness :
  get_device_by_class "unknown" "0:0:0:0" (World sda_store [false; false])
  = Some (Some sda_found, World sda_store [])
  ∧ tdb_map (World sda_store [])
    = tdb_map (World sda_store [false; false]).
Proof.
  assert (get_device_by_class "unknown" "0:0:0:0"
            (World sda_store [false; false])
          = Some (Some sda_found, World sda_store [])) as Hg
    by (vm_compute; reflexivity).
  split; [exact Hg|].
  exact (proj1 (proj2 (proj2 (C9_lookups_leave_the_store_unchanged _ _)))
           _ _ _ Hg).
Defined.

(** C10, witness: the add of [sda], whose bus is "scsi" and whose class is
    "block". *)
Lemma C10_witness :
  add_device sda empty_world = Some (0, World sda_store [])
  ∧ ∃ r, sda_store !! "sda"%string = Some (NameData r)
         ∧ nrec_bus r = "unknown"%string
         ∧ nrec_class_name r = EmptyString.
Proof.
  split; [apply add_sda|].
  destruct (C10_added_record_has_unknown_bus_and_empty_class
              _ _ _ _ _ _ _ _ _ add_sda)
    as (dv & cd & nm & r & _ & _ & [= <-] & Hr & Hb & Hc & _).
  by exists r.
Defined.

End Scenario.

(** ** Further properties of the code *)

(** *** Any run, read backwards *)

Ltac unbind H a w E := apply bind_Some_inv in H as (a & w & E & H).

Lemma ret_inv {A} (a b : A) w w' : ret a w = Some (b, w') → b = a ∧ w' = w.
Proof. by intros [= <- <-]. Qed.

Lemma next_fault_inv w f w' :
  next_fault w = Some (f, w') → tdb_map w' = tdb_map w.
Proof. apply read_only_next_fault. Qed.

Lemma tdb_store_inv k d w r w' :
  tdb_store k d w = Some (r, w') →
  (r = 0 ∧ tdb_map w' = <[k := d]> (tdb_map w))
  ∨ (r = -1 ∧ tdb_map w' = tdb_map w).
Proof.
  destruct w as [m fs]. rewrite tdb_store_run.
  destruct fs as [|[] fs]; cbn [pop_fault fst snd]; intros H;
    injection H as <- <-; auto.
Qed.

Lemma tdb_delete_inv k w r w' :
  tdb_delete k w = Some (r, w') →
  (r = 0 ∧ tdb_map w' = delete k (tdb_map w))
  ∨ (r = -1 ∧ tdb_map w' = tdb_map w).
Proof.
  destruct w as [m [|[] fs]]; unfold tdb_delete, bind, next_fault, ret;
    cbn [faults tdb_map pop_fault]; try destruct (m !! k);
    intros H; injection H as <- <-; auto.
Qed.

Lemma tdb_fetch_inv k w d w' :
  tdb_fetch k w = Some (Some d, w') →
  tdb_map w !! k = Some d ∧ tdb_map w' = tdb_map w.
Proof.
  destruct w as [m [|[] fs]]; unfold tdb_fetch, bind, next_fault, ret;
    cbn [faults tdb_map pop_fault]; intros H;
    first [discriminate H | by injection H as <- <-].
Qed.

Lemma malloc_inv w b w' : malloc w = Some (b, w') → tdb_map w' = tdb_map w.
Proof. apply read_only_malloc. Qed.

Section Backwards.
Context {L : limits}.
Implicit Types (m : gmap string tdb_data) (cd : sysfs_class_device).

Lemma namedb_fetch_inv name w r w' :
  namedb_fetch (Some name) w = Some (Some r, w') →
  (strlen name < NAME_SIZE)%nat
  ∧ tdb_map w !! name = Some (NameData r)
  ∧ tdb_map w' = tdb_map w.
Proof.
  unfold namedb_fetch. intros H.
  destruct (Nat.leb_spec NAME_SIZE (strlen name)) as [|Hn]; [done|].
  unbind H k w1 Ek. apply strcpy_inv in Ek as [-> ->].
  unbind H data w2 Ef. destruct data as [d|]; [|done].
  apply tdb_fetch_inv in Ef as [Hd Hm].
  unbind H b w3 Em. apply malloc_inv in Em.
  destruct b; [|done]. destruct d; try done.
  apply ret_inv in H as [[= ->] ->]. rewrite Em, Hm. done.
Qed.

Lemma busdb_fetch_inv bus id w r w' :
  busdb_fetch (Some bus) (Some id) w = Some (Some r, w') →
  (strlen bus < BUS_SIZE)%nat ∧ (strlen id < ID_SIZE)%nat
  ∧ (∃ d, tdb_map w !! key2 bus id = Some d ∧ as_busdb_record d = Some r)
  ∧ tdb_map w' = tdb_map w.
Proof.
  unfold busdb_fetch. intros H.
  destruct (Nat.leb_spec BUS_SIZE (strlen bus)) as [|Hb]; [done|].
  destruct (Nat.leb_spec ID_SIZE (strlen id)) as [|Hi]; [done|].
  cbn [orb] in H.
  unbind H k w1 Ek. apply keystr2_inv in Ek as [-> ->].
  unbind H data w2 Ef. destruct data as [d|]; [|done].
  apply tdb_fetch_inv in Ef as [Hd Hm].
  unbind H b w3 Em. apply malloc_inv in Em.
  destruct b; [|done].
  destruct (as_busdb_record d) as [r'|] eqn:Er; [|done].
  apply ret_inv in H as [[= ->] ->]. rewrite Em, Hm. eauto 6.
Qed.

Lemma classdb_fetch_inv cls cls_dev w r w' :
  classdb_fetch (Some cls) (Some cls_dev) w = Some (Some r, w') →
  (strlen cls < NAME_SIZE)%nat ∧ (strlen cls_dev < NAME_SIZE)%nat
  ∧ (∃ d, tdb_map w !! key2 cls cls_dev = Some d
          ∧ as_classdb_record d = Some r)
  ∧ tdb_map w' = tdb_map w.
Proof.
  unfold classdb_fetch. intros H.
  destruct (Nat.leb_spec NAME_SIZE (strlen cls)) as [|Hb]; [done|].
  destruct (Nat.leb_spec NAME_SIZE (strlen cls_dev)) as [|Hi]; [done|].
  cbn [orb] in H.
  unbind H k w1 Ek. apply keystr2_inv in Ek as [-> ->].
  unbind H data w2 Ef. destruct data as [d|]; [|done].
  apply tdb_fetch_inv in Ef as [Hd Hm].
  unbind H b w3 Em. apply malloc_inv in Em.
  destruct b; [|done].
  destruct (as_classdb_record d) as [r'|] eqn:Er; [|done].
  apply ret_inv in H as [[= ->] ->]. rewrite Em, Hm. eauto 6.
Qed.

Lemma sysfsdb_fetch_inv path w r w' :
  sysfsdb_fetch path w = Some (Some r, w') →
  (strlen path < PATH_SIZE)%nat
  ∧ (∃ d, tdb_map w !! path = Some d ∧ as_sysfsdb_record d = Some r)
  ∧ tdb_map w' = tdb_map w.
Proof.
  unfold sysfsdb_fetch. intros H.
  destruct (Nat.leb_spec PATH_SIZE (strlen path)) as [|Hn]; [done|].
  unbind H k w1 Ek. apply strcpy_inv in Ek as [-> ->].
  unbind H data w2 Ef. destruct data as [d|]; [|done].
  apply tdb_fetch_inv in Ef as [Hd Hm].
  unbind H b w3 Em. apply malloc_inv in Em.
  destruct b; [|done].
  destruct (as_sysfsdb_record d) as [r'|] eqn:Er; [|done].
  apply ret_inv in H as [[= ->] ->]. rewrite Em, Hm. eauto 6.
Qed.

Lemma udevdb_get_udevice_inv name w r w' :
  udevdb_get_udevice name w = Some (Some r, w') →
  ∃ nm nrec, name = Some nm
    ∧ (strlen nm < NAME_SIZE)%nat
    ∧ tdb_map w !! nm = Some (NameData nrec)
    ∧ r = udevice_of nm nrec.
Proof.
  unfold udevdb_get_udevice. destruct name as [nm|]; [|done]. intros H.
  unbind H nrec w1 Ef. destruct nrec as [nrec|]; [|done].
  apply namedb_fetch_inv in Ef as (Hn & Hm & _).
  unbind H b w2 Em. destruct b; [|done].
  apply ret_inv in H as [[= ->] _]. by exists nm, nrec.
Qed.

(** *** The stores, whatever they return *)

Lemma busdb_store_inv dev w r w' :
  busdb_store (Some dev) w = Some (r, w') →
  (r = 0 ∧ tdb_map w' = <[key2 (dev_bus_name dev) (dev_bus_id dev)
                          := BusData (Busdb_record (dev_name dev))]>
                          (tdb_map w))
  ∨ (r = -1 ∧ tdb_map w' = tdb_map w).
Proof.
  unfold busdb_store. intros H.
  unbind H k w1 Ek. apply keystr2_inv in Ek as [-> ->].
  unbind H n w2 En. apply strcpy_inv in En as [-> ->].
  by apply tdb_store_inv.
Qed.

Lemma classdb_store_inv dev w r w' :
  classdb_store (Some dev) w = Some (r, w') →
  (r = 0 ∧ tdb_map w' = <[key2 (dev_class_name dev) (dev_class_dev_name dev)
                          := ClassData (Classdb_record (dev_name dev))]>
                          (tdb_map w))
  ∨ (r = -1 ∧ tdb_map w' = tdb_map w).
Proof.
  unfold classdb_store. intros H.
  unbind H k w1 Ek. apply keystr2_inv in Ek as [-> ->].
  unbind H n w2 En. apply strcpy_inv in En as [-> ->].
  by apply tdb_store_inv.
Qed.

Lemma sysfs_store_inv path dev w r w' :
  sysfs_store (Some path) (Some dev) w = Some (r, w') →
  (r = 0 ∧ tdb_map w' = <[path := SysfsData (Sysfsdb_record (dev_name dev))]>
                          (tdb_map w))
  ∨ (r = -1 ∧ tdb_map w' = tdb_map w).
Proof.
  unfold sysfs_store. intros H.
  unbind H k w1 Ek. apply strcpy_inv in Ek as [-> ->].
  unbind H n w2 En. apply strcpy_inv in En as [-> ->].
  by apply tdb_store_inv.
Qed.

Lemma namedb_store_inv dev drv w r w' :
  dev_driver dev = Some drv →
  namedb_store (Some dev) w = Some (r, w') →
  (r = 0 ∧ tdb_map w' =
     <[dev_name dev :=
         NameData {| nrec_sysfs_dev_path := dev_sysfs_dev_path dev;
                     nrec_class_dev_name := dev_class_dev_name dev;
                     nrec_class_name := dev_class_name dev;
                     nrec_bus := dev_bus_name dev;
                     nrec_id := dev_bus_id dev;
                     nrec_driver := drv;
                     nrec_type := dev_type dev;
                     nrec_major := dev_major dev;
                     nrec_minor := dev_minor dev;
                     nrec_mode := dev_mode dev |}]> (tdb_map w))
  ∨ (r = -1 ∧ tdb_map w' = tdb_map w).
Proof.
  unfold namedb_store. intros Hd H. rewrite Hd in H.
  unbind H k w1 E1. apply strcpy_inv in E1 as [-> ->].
  unbind H s2 w2 E2. apply strcpy_inv in E2 as [-> ->].
  unbind H s3 w3 E3. apply strcpy_inv in E3 as [-> ->].
  unbind H s4 w4 E4. apply strcpy_inv in E4 as [-> ->].
  unbind H s5 w5 E5. apply strcpy_inv in E5 as [-> ->].
  unbind H s6 w6 E6. apply strcpy_inv in E6 as [-> ->].
  unbind H s7 w7 E7. apply strcpy_inv in E7 as [-> ->].
  by apply tdb_store_inv.
Qed.

(** Every run of [udevdb_add_device] on a class device made the first
    [j] of its four writes and nothing else; it returns 0 when [j] is 4
    and -1 otherwise. *)
Lemma udevdb_add_device_inv device cd name type major minor mode w r w' :
  udevdb_add_device (Some device) (Some cd) (Some name)
                    type major minor mode w = Some (r, w') →
  ∃ j, tdb_map w' =
       apply_writes (take j (add_writes device cd name type major minor mode))
                    (tdb_map w)
       ∧ ((r = 0 ∧ j = 4%nat) ∨ (r = -1 ∧ (j < 4)%nat)).
Proof.
  unfold udevdb_add_device. intros H.
  unbind H nm w0 En. apply strncpy_Some_inv in En as [-> ->].
  apply bind_Some_inv in H as (sys & ws & Esys & H).
  assert (sys = (sys_path cd, sys_bus_id cd) ∧ ws = w) as [-> ->].
  { unfold sys_path, sys_bus_id.
    destruct (cd_sysdevice cd) as [sd|].
    - unbind Esys p w1 Ep. apply strncpy_Some_inv in Ep as [-> ->].
      unbind Esys i w2 Ei. apply strncpy_Some_inv in Ei as [-> ->].
      by injection Esys as <- <-.
    - by injection Esys as <- <-. }
  clear Esys.
  unbind H cdn w1 Ec. apply strncpy_Some_inv in Ec as [-> ->].
  apply bind_Some_inv in H as (drv & wd & Edrv & H).
  assert (drv = driver_name cd ∧ wd = w) as [-> ->].
  { unfold driver_name. destruct (cd_driver cd) as [d|].
    - by apply strncpy_Some_inv in Edrv.
    - by injection Edrv as <- <-. }
  clear Edrv. cbn [fst snd] in H.
  unfold add_writes, added_record.
  unbind H r1 w1 Eb. apply busdb_store_inv in Eb as [[-> Eb]|[-> Eb]];
    cbn [negb Z.eqb dev_name dev_bus_name dev_bus_id] in *;
    [|apply ret_inv in H as [-> ->]; exists 0%nat; split; [done | right; lia]].
  unbind H r2 w2 Ec. apply classdb_store_inv in Ec as [[-> Ec]|[-> Ec]];
    cbn [negb Z.eqb dev_name dev_class_name dev_class_dev_name] in *;
    [|apply ret_inv in H as [-> ->]; exists 1%nat;
      split; [by rewrite Ec, Eb | right; lia]].
  unbind H r3 w3 Es. apply sysfs_store_inv in Es as [[-> Es]|[-> Es]];
    cbn [negb Z.eqb dev_name] in *;
    [|apply ret_inv in H as [-> ->]; exists 2%nat;
      split; [by rewrite Es, Ec, Eb | right; lia]].
  unbind H r4 w4 En.
  eapply namedb_store_inv in En as [[-> En]|[-> En]]; [| |done];
    cbn [negb Z.eqb dev_name dev_sysfs_dev_path dev_class_dev_name
         dev_class_name dev_bus_id dev_bus_name dev_type dev_major
         dev_minor dev_mode] in *;
    apply ret_inv in H as [-> ->].
  - exists 4%nat. split; [by rewrite En, Es, Ec, Eb | left; done].
  - exists 3%nat. split; [by rewrite En, Es, Ec, Eb | right; lia].
Qed.

End Backwards.

Section Outcomes.
Context {L : limits}.
Implicit Types (m : gmap string tdb_data) (cd : sysfs_class_device).

Lemma busdb_delete_inv bus id w r w' :
  busdb_delete (Some bus) (Some id) w = Some (r, w') →
  tdb_map w' = tdb_map w ∨ tdb_map w' = delete (key2 bus id) (tdb_map w).
Proof.
  unfold busdb_delete. intros H.
  destruct (_ || _).
  - apply ret_inv in H as [_ ->]. by left.
  - unbind H k w1 Ek. apply keystr2_inv in Ek as [-> ->].
    apply tdb_delete_inv in H as [[_ ->]|[_ ->]]; auto.
Qed.

Lemma classdb_delete_inv cls cls_dev w r w' :
  classdb_delete (Some cls) (Some cls_dev) w = Some (r, w') →
  tdb_map w' = tdb_map w
  ∨ tdb_map w' = delete (key2 cls cls_dev) (tdb_map w).
Proof.
  unfold classdb_delete. intros H.
  destruct (_ || _).
  - apply ret_inv in H as [_ ->]. by left.
  - unbind H k w1 Ek. apply keystr2_inv in Ek as [-> ->].
    apply tdb_delete_inv in H as [[_ ->]|[_ ->]]; auto.
Qed.

Lemma namedb_delete_inv name w r w' :
  namedb_delete (Some name) w = Some (r, w') →
  tdb_map w' = tdb_map w ∨ tdb_map w' = delete name (tdb_map w).
Proof.
  unfold namedb_delete. intros H.
  destruct (_ <=? _)%nat.
  - apply ret_inv in H as [_ ->]. by left.
  - unbind H k w1 Ek. apply strcpy_inv in Ek as [-> ->].
    apply tdb_delete_inv in H as [[_ ->]|[_ ->]]; auto.
Qed.

(** What a run of [udevdb_delete_udevice] that found its record did to
    the store: each of the three keys is deleted or left. *)
Lemma udevdb_delete_udevice_inv name w r w' :
  udevdb_delete_udevice name w = Some (r, w') →
  (r = -1 ∧ tdb_map w' = tdb_map w)
  ∨ (r = 0 ∧ ∃ nm nrec m1 m2,
       name = Some nm
       ∧ (strlen nm < NAME_SIZE)%nat
       ∧ tdb_map w !! nm = Some (NameData nrec)
       ∧ (m1 = tdb_map w
          ∨ m1 = delete (key2 (nrec_bus nrec) (nrec_id nrec)) (tdb_map w))
       ∧ (m2 = m1
          ∨ m2 = delete (key2 (nrec_class_name nrec)
                              (nrec_class_dev_name nrec)) m1)
       ∧ (tdb_map w' = m2 ∨ tdb_map w' = delete nm m2)).
Proof.
  unfold udevdb_delete_udevice. destruct name as [nm|];
    [|intros H; apply ret_inv in H as [-> ->]; by left].
  intros H. unbind H nrec w1 Ef.
  destruct nrec as [nrec|].
  - apply namedb_fetch_inv in Ef as (Hn & Hm & E1).
    unbind H r2 w2 Eb. apply busdb_delete_inv in Eb.
    unbind H r3 w3 Ec. apply classdb_delete_inv in Ec.
    unbind H r4 w4 En. apply namedb_delete_inv in En.
    apply ret_inv in H as [-> ->]. right. split; [done|].
    exists nm, nrec, (tdb_map w2), (tdb_map w3).
    rewrite E1 in Eb. by repeat split.
  - apply ret_inv in H as [-> ->]. left. split; [done|].
    by apply (read_only_namedb_fetch (Some nm) w None).
Qed.

Lemma udevdb_delete_udevice_subseteq name w r w' :
  udevdb_delete_udevice name w = Some (r, w') → tdb_map w' ⊆ tdb_map w.
Proof.
  intros H. apply udevdb_delete_udevice_inv in H
    as [[_ ->]|[_ (nm & nrec & m1 & m2 & -> & Hn & Hm & H1 & H2 & H3)]];
    [done|].
  assert (m1 ⊆ tdb_map w) as S1
    by (destruct H1 as [->| ->]; [done | apply delete_subseteq]).
  assert (m2 ⊆ m1) as S2
    by (destruct H2 as [->| ->]; [done | apply delete_subseteq]).
  assert (tdb_map w' ⊆ m2) as S3
    by (destruct H3 as [->| ->]; [done | apply delete_subseteq]).
  by repeat (etrans; [eassumption|]).
Qed.



(** X3.  [udevdb_delete_udevice] returns 0 or -1.  When it returns -1
    nothing was deleted; when it returns 0 the name was within its bound
    and had a record in the store. *)
Theorem delete_return_value name w r w' :
  udevdb_delete_udevice name w = Some (r, w') →
  (r = -1 ∧ tdb_map w' = tdb_map w)
  ∨ (r = 0 ∧ ∃ nm nrec, name = Some nm
                         ∧ (strlen nm < NAME_SIZE)%nat
                         ∧ tdb_map w !! nm = Some (NameData nrec)).
Proof.
  intros H. apply udevdb_delete_udevice_inv in H
    as [?|[-> (nm & nrec & m1 & m2 & -> & Hn & Hm & _)]]; [by left|].
  right. split; [done|]. by exists nm, nrec.
Qed.

(** X4.  [udevdb_delete_udevice] only removes: every entry of the store
    after the call was there before, unchanged; and no key is removed
    but the name and the bus and class keys built from the fields of the
    record of the name.  In particular an entry under a path that is
    none of these three keys stays. *)
Theorem delete_only_removes_its_keys name w r w' :
  udevdb_delete_udevice name w = Some (r, w') →
  tdb_map w' ⊆ tdb_map w
  ∧ ∀ nm nrec k,
      name = Some nm → tdb_map w !! nm = Some (NameData nrec) →
      k ≠ nm → k ≠ key2 (nrec_bus nrec) (nrec_id nrec) →
      k ≠ key2 (nrec_class_name nrec) (nrec_class_dev_name nrec) →
      tdb_map w' !! k = tdb_map w !! k.
Proof.
  intros H. split; [by apply udevdb_delete_udevice_subseteq in H|].
  apply udevdb_delete_udevice_inv in H
    as [[_ ->]|[_ (nm & nrec & m1 & m2 & -> & Hn & Hm & H1 & H2 & H3)]];
    [done|].
  - intros nm' nrec' k [= <-] Hm' Kn Kb Kc.
    rewrite Hm in Hm'. injection Hm' as <-.
    destruct H3 as [->| ->], H2 as [->| ->], H1 as [->| ->];
      by rewrite ?lookup_delete_ne by done.
Qed.

End Outcomes.

Section Composition.
Context {L : limits}.
Implicit Types (m : gmap string tdb_data) (cd : sysfs_class_device).

Lemma added_lookup_other device cd name type major minor mode m k :
  k ≠ key2 "unknown" (sys_bus_id cd) → k ≠ key2 EmptyString (cd_name cd) →
  k ≠ device → k ≠ name →
  apply_writes (add_writes device cd name type major minor mode) m !! k
  = m !! k.
Proof.
  intros Kb Kc Kd Kn. unfold add_writes; cbn [apply_writes].
  by rewrite !lookup_insert_ne by done.
Qed.

Lemma added_record_in_bounds device cd name type major minor mode :
  limits_ok → add_args_ok device cd name →
  record_in_bounds (added_record cd type major minor mode).
Proof.
  intros (Hb & Hn & Hi & Hp & Hd) (An & Adev & Acd & Asys & Adrv).
  unfold record_in_bounds, added_record, sys_path, sys_bus_id, driver_name;
    cbn [nrec_sysfs_dev_path nrec_class_dev_name nrec_class_name nrec_bus
         nrec_id nrec_driver].
  destruct (cd_sysdevice cd) as [sd|], (cd_driver cd) as [d|];
    simpl; repeat split; try lia; tauto.
Qed.

Lemma udevdb_delete_udevice_miss name m :
  m !! name = None →
  udevdb_delete_udevice (Some name) (World m []) = Some (-1, World m []).
Proof.
  intros Hm. unfold udevdb_delete_udevice.
  by erewrite bind_run by (by apply namedb_fetch_miss).
Qed.

(** X5.  In a store whose records are within bounds, with no fault,
    [udevdb_delete_udevice] of a name that has a record returns 0 and
    removes the name and the bus and class keys of that record: the
    three lookups for them return [NULL] afterwards, and a second delete
    of the name returns -1 and changes nothing. *)
Theorem delete_removes_record_and_its_index_keys name nrec m :
  (strlen UDEVDB_DEL ≤ 3)%nat → store_in_bounds m →
  (strlen name < NAME_SIZE)%nat → m !! name = Some (NameData nrec) →
  ∃ m',
    udevdb_delete_udevice (Some name) (World m []) = Some (0, World m' [])
    ∧ m' = delete name
             (delete (key2 (nrec_class_name nrec) (nrec_class_dev_name nrec))
                (delete (key2 (nrec_bus nrec) (nrec_id nrec)) m))
    ∧ udevdb_get_udevice (Some name) (World m' []) = Some (None, World m' [])
    ∧ udevdb_get_udevice_by_bus (Some (nrec_bus nrec)) (Some (nrec_id nrec))
        (World m' []) = Some (None, World m' [])
    ∧ udevdb_get_udevice_by_class (Some (nrec_class_name nrec))
        (Some (nrec_class_dev_name nrec)) (World m' [])
      = Some (None, World m' [])
    ∧ udevdb_delete_udevice (Some name) (World m' [])
      = Some (-1, World m' []).
Proof.
  intros Hd Hwf Hn Hm.
  destruct (Hwf _ _ Hm) as (_ & Hcd & Hc & Hb & Hi & _).
  eexists. split; [by apply udevdb_delete_udevice_run|].
  split; [done|]. split; [|split; [|split]].
  - apply udevdb_get_udevice_miss, lookup_delete_eq.
  - apply udevdb_get_udevice_by_bus_miss; [done|].
    rewrite !lookup_delete. by repeat case_decide.
  - apply udevdb_get_udevice_by_class_miss; [done|].
    rewrite !lookup_delete. by repeat case_decide.
  - apply udevdb_delete_udevice_miss, lookup_delete_eq.
Qed.



(** X8.  Two devices with the same bus id (two class devices without a
    sysdevice, for one) share one bus key.  After both are added and the
    first is deleted, the lookup by that bus id returns [NULL] although
    the second device is still in the store under its name. *)
Theorem delete_takes_shared_bus_entry
    device cd name type major minor mode
    device' cd' name' type' major' minor' mode' m :
  limits_ok → add_args_ok device cd name → add_args_ok device' cd' name' →
  sys_bus_id cd = sys_bus_id cd' →
  name ≠ key2 "unknown" (sys_bus_id cd') → name ≠ key2 EmptyString (cd_name cd') →
  name ≠ device' → name ≠ name' →
  name' ≠ key2 "unknown" (sys_bus_id cd) → name' ≠ key2 EmptyString (cd_name cd) →
  ∃ m1 m2 m3,
    udevdb_add_device (Some device) (Some cd) (Some name)
                      type major minor mode (World m [])
    = Some (0, World m1 [])
    ∧ udevdb_add_device (Some device') (Some cd') (Some name')
                        type' major' minor' mode' (World m1 [])
      = Some (0, World m2 [])
    ∧ udevdb_delete_udevice (Some name) (World m2 []) = Some (0, World m3 [])
    ∧ udevdb_get_udevice_by_bus (Some "unknown"%string)
        (Some (sys_bus_id cd')) (World m3 [])
      = Some (None, World m3 [])
    ∧ udevdb_get_udevice (Some name') (World m3 [])
      = Some (Some (udevice_of name'
                      (added_record cd' type' major' minor' mode')),
              World m3 []).
Proof.
  intros HL HA HA' Hid K1 K2 K3 K4 K5 K6.
  pose proof (added_record_in_bounds _ _ _ type major minor mode HL HA)
    as (_ & Rcd & Rc & Rb & Ri & _).
  pose proof HL as (HB & HN & HI & HP & HD).
  pose proof HA as (An & _). pose proof HA' as (An' & _).
  rewrite udevdb_add_device_run, run_writes_no_fault by done.
  eexists _, _, _. split; [reflexivity|].
  rewrite udevdb_add_device_run, run_writes_no_fault by done.
  split; [reflexivity|]. split.
  { apply (udevdb_delete_udevice_run name
             (added_record cd type major minor mode)); try done.
    rewrite added_lookup_other by done. apply added_lookup_name. }
  cbn [added_record nrec_bus nrec_id nrec_class_name nrec_class_dev_name].
  split.
  - apply udevdb_get_udevice_by_bus_miss; [done|]. rewrite <- Hid.
    rewrite !lookup_delete. by repeat case_decide.
  - apply udevdb_get_udevice_hit; [done|].
    rewrite !lookup_delete_ne by done. apply added_lookup_name.
Qed.

(** X9.  After an add with a path shorter than [PATH_SIZE] and different
    from the name, the lookup by path returns the name, and the lookup
    by that name returns the record: the two chain to the device. *)
Theorem path_lookup_chains_to_the_record
    device cd name type major minor mode m :
  limits_ok → add_args_ok device cd name →
  (strlen device < PATH_SIZE)%nat → device ≠ name →
  ∃ m',
    udevdb_add_device (Some device) (Some cd) (Some name)
                      type major minor mode (World m [])
    = Some (0, World m' [])
    ∧ udevdb_get_udevice_by_sysfs (Some device) (World m' [])
      = Some (Some name, World m' [])
    ∧ udevdb_get_udevice (Some name) (World m' [])
      = Some (Some (udevice_of name (added_record cd type major minor mode)),
              World m' []).
Proof.
  intros HL HA Hp Hne. pose proof HA as (An & _).
  rewrite udevdb_add_device_run, run_writes_no_fault by done.
  eexists. split; [reflexivity|]. split.
  - rewrite (udevdb_get_udevice_by_sysfs_hit _ (Sysfsdb_record name));
      [done | done | by apply added_lookup_path].
  - apply udevdb_get_udevice_hit; [done | apply added_lookup_name].
Qed.

End Composition.

Section Lookups.
Context {L : limits}.
Implicit Types (m : gmap string tdb_data) (cd : sysfs_class_device).

(** X10.  A lookup never makes a record up.  What the lookup by name
    returns is the record stored under that name, without its driver.
    What the lookups by bus and by class return is the record stored
    under the name read from the value at the composite key, whichever
    store call wrote that value and whatever bus or class the record
    itself carries.  What the lookup by path returns is the name read
    from the value at the path. *)
Theorem lookup_results_come_from_the_store w w' :
  (∀ name r,
     udevdb_get_udevice name w = Some (Some r, w') →
     ∃ nm nrec, name = Some nm ∧ (strlen nm < NAME_SIZE)%nat
       ∧ tdb_map w !! nm = Some (NameData nrec)
       ∧ r = udevice_of nm nrec)
  ∧ (∀ bus id r,
       udevdb_get_udevice_by_bus bus id w = Some (Some r, w') →
       ∃ b i d brec nrec, bus = Some b ∧ id = Some i
         ∧ (strlen b < BUS_SIZE)%nat ∧ (strlen i < ID_SIZE)%nat
         ∧ tdb_map w !! key2 b i = Some d
         ∧ as_busdb_record d = Some brec
         ∧ tdb_map w !! busdb_name brec = Some (NameData nrec)
         ∧ r = udevice_of (busdb_name brec) nrec)
  ∧ (∀ cls cls_dev r,
       udevdb_get_udevice_by_class cls cls_dev w = Some (Some r, w') →
       ∃ c dv d crec nrec, cls = Some c ∧ cls_dev = Some dv
         ∧ (strlen c < NAME_SIZE)%nat ∧ (strlen dv < NAME_SIZE)%nat
         ∧ tdb_map w !! key2 c dv = Some d
         ∧ as_classdb_record d = Some crec
         ∧ tdb_map w !! classdb_name crec = Some (NameData nrec)
         ∧ r = udevice_of (classdb_name crec) nrec)
  ∧ (∀ path n,
       udevdb_get_udevice_by_sysfs path w = Some (Some n, w') →
       ∃ p d, path = Some p ∧ (strlen p < PATH_SIZE)%nat
         ∧ tdb_map w !! p = Some d
         ∧ as_sysfsdb_record d = Some (Sysfsdb_record n)).
Proof.
  split; [|split; [|split]].
  - intros name r. apply udevdb_get_udevice_inv.
  - intros bus id r H. unfold udevdb_get_udevice_by_bus in H.
    destruct bus as [b|], id as [i|]; try done.
    unbind H brec w1 Ef. destruct brec as [brec|]; [|done].
    apply busdb_fetch_inv in Ef as (Hb & Hi & (d & Hm & Hd) & E1).
    apply udevdb_get_udevice_inv in H
      as (nm & nrec & [= <-] & _ & Hn & ->).
    rewrite E1 in Hn. by exists b, i, d, brec, nrec.
  - intros cls cls_dev r H. unfold udevdb_get_udevice_by_class in H.
    destruct cls as [c|], cls_dev as [dv|]; try done.
    unbind H crec w1 Ef. destruct crec as [crec|]; [|done].
    apply classdb_fetch_inv in Ef as (Hb & Hi & (d & Hm & Hd) & E1).
    apply udevdb_get_udevice_inv in H
      as (nm & nrec & [= <-] & _ & Hn & ->).
    rewrite E1 in Hn. by exists c, dv, d, crec, nrec.
  - intros path n H. unfold udevdb_get_udevice_by_sysfs in H.
    destruct path as [p|]; [|done].
    unbind H crec w1 Ef. destruct crec as [[n']|]; [|done].
    apply sysfsdb_fetch_inv in Ef as (Hp & (d & Hm & Hd) & _).
    apply ret_inv in H as [[= ->] _]. by exists p, d.
Qed.

(** X11.  An argument that is [NULL], or at or over its bound, ends a
    lookup or a delete before any call into the engine: the lookup
    returns [NULL], the delete -1, and neither the store nor the faults
    to come are touched. *)
Theorem null_or_overlong_argument_is_not_looked_up w :
  (∀ name, null_or_long NAME_SIZE name →
     udevdb_get_udevice name w = Some (None, w)
     ∧ udevdb_delete_udevice name w = Some (-1, w))
  ∧ (∀ bus id, null_or_long BUS_SIZE bus ∨ null_or_long ID_SIZE id →
       udevdb_get_udevice_by_bus bus id w = Some (None, w))
  ∧ (∀ cls cls_dev,
       null_or_long NAME_SIZE cls ∨ null_or_long NAME_SIZE cls_dev →
       udevdb_get_udevice_by_class cls cls_dev w = Some (None, w))
  ∧ (∀ path, null_or_long PATH_SIZE path →
       udevdb_get_udevice_by_sysfs path w = Some (None, w)).
Proof.
  split; [|split; [|split]].
  - intros [nm|] Hl; [|done]. simpl in Hl.
    unfold udevdb_get_udevice, udevdb_delete_udevice, namedb_fetch, bind.
    by rewrite (proj2 (Nat.leb_le _ _) Hl).
  - intros [b|] [i|] Hl; try done.
    unfold udevdb_get_udevice_by_bus, busdb_fetch, bind.
    destruct Hl as [Hl|Hl]; simpl in Hl;
      rewrite (proj2 (Nat.leb_le _ _) Hl); [done|].
    by rewrite orb_true_r.
  - intros [c|] [d|] Hl; try done.
    unfold udevdb_get_udevice_by_class, classdb_fetch, bind.
    destruct Hl as [Hl|Hl]; simpl in Hl;
      rewrite (proj2 (Nat.leb_le _ _) Hl); [done|].
    by rewrite orb_true_r.
  - intros [p|] Hl; [|done]. simpl in Hl.
    unfold udevdb_get_udevice_by_sysfs, sysfsdb_fetch, bind.
    by rewrite (proj2 (Nat.leb_le _ _) Hl).
Qed.

Lemma occurs_app c a b : occurs c (a +:+ b) = occurs c a || occurs c b.
Proof.
  induction a as [|x a IH]; [done|]. rewrite strapp_cons. simpl.
  by destruct (Ascii.eqb c x).
Qed.

Lemma occurs_key2 c a b :
  UDEVDB_DEL = String c EmptyString → occurs c (key2 a b) = true.
Proof.
  intros Hd. unfold key2. rewrite Hd, !occurs_app. simpl.
  rewrite Ascii.eqb_refl. by rewrite orb_true_r.
Qed.

(** X12.  With a one-character delimiter, every key that [keystr2]
    builds contains the delimiter.  So a device whose name does not
    contain it never loses its bus or class entry to its own name
    record: after an add within bounds and without fault it is found by
    bus "unknown" and its bus id, and by the empty class name and its
    class device name. *)
Theorem delimiter_free_name_is_found_by_bus_and_class c :
  UDEVDB_DEL = String c EmptyString →
  (∀ cap a b w k w', keystr2 cap a b w = Some (k, w') → occurs c k = true)
  ∧ (∀ device cd name type major minor mode m,
       occurs c name = false →
       limits_ok → add_args_ok device cd name →
       ∃ m',
         let r := udevice_of name (added_record cd type major minor mode) in
         udevdb_add_device (Some device) (Some cd) (Some name)
                           type major minor mode (World m [])
         = Some (0, World m' [])
         ∧ udevdb_get_udevice_by_bus (Some "unknown"%string)
             (Some (sys_bus_id cd)) (World m' [])
           = Some (Some r, World m' [])
         ∧ udevdb_get_udevice_by_class (Some EmptyString)
             (Some (cd_name cd)) (World m' [])
           = Some (Some r, World m' [])).
Proof.
  intros Hd. split.
  - intros cap a b w k w' H. apply keystr2_inv in H as [-> _].
    by apply occurs_key2.
  - intros device cd name type major minor mode m Oname HL HA.
    assert (∀ a b, key2 a b ≠ name) as Hk.
    { intros a b E. rewrite <- E, occurs_key2 in Oname; done. }
    pose proof (sys_bus_id_bound _ _ _ HL HA) as Hid.
    pose proof HL as (HB & HN & HI & HP & HD).
    pose proof HA as (An & Adev & Acd & Asys & Adrv).
    rewrite udevdb_add_device_run, run_writes_no_fault by done.
    eexists. cbv zeta. split; [reflexivity|]. split.
    + destruct (added_bus_key_reads_name device cd name type major minor
                  mode m HP An (Hk _ _)) as (d & Hm & Hr).
      rewrite (udevdb_get_udevice_by_bus_read _ _ d (Busdb_record name));
        [| done | simpl; lia | done | done | done].
      apply udevdb_get_udevice_hit; [done | apply added_lookup_name].
    + destruct (added_class_key_reads_name device cd name type major minor
                  mode m HP An (Hk _ _)) as (d & Hm & Hr).
      rewrite (udevdb_get_udevice_by_class_read _ _ d (Classdb_record name));
        [| done | simpl; lia | done | done | done].
      apply udevdb_get_udevice_hit; [done | apply added_lookup_name].
Qed.

End Lookups.

Section Invariant.
Context {L : limits}.
Implicit Types (m : gmap string tdb_data) (cd : sysfs_class_device).

Lemma apply_writes_in_bounds ws m :
  store_in_bounds m → Forall (λ kd, data_in_bounds kd.2) ws →
  store_in_bounds (apply_writes ws m).
Proof.
  revert m. induction ws as [|[k d] ws IH]; intros m Hm Hws; [done|].
  apply Forall_cons in Hws as [Hd Hws]. cbn [apply_writes].
  apply IH; [|done]. intros k' d' Hk'.
  destruct (decide (k = k')) as [->|Hne].
  - rewrite lookup_insert_eq in Hk'. by injection Hk' as <-.
  - rewrite lookup_insert_ne in Hk' by done. by apply (Hm k').
Qed.

Lemma add_writes_in_bounds device cd name type major minor mode :
  limits_ok → add_args_ok device cd name →
  Forall (λ kd, data_in_bounds kd.2)
         (add_writes device cd name type major minor mode).
Proof.
  intros HL HA.
  pose proof (added_record_in_bounds _ _ _ type major minor mode HL HA).
  destruct HL as (_ & _ & _ & Hp & _), HA as (An & _).
  unfold add_writes. repeat apply Forall_cons_2; simpl; try done; lia.
Qed.

(** X13.  The store keeps its records within bounds.  If every string of
    every stored record ends inside its array, this is still so after
    [udevdb_add_device] with arguments within bounds and after
    [udevdb_delete_udevice], whatever they return and whatever fails. *)
Theorem add_and_delete_keep_records_in_bounds w :
  store_in_bounds (tdb_map w) →
  (∀ device cd name type major minor mode r w',
     limits_ok → add_args_ok device cd name →
     udevdb_add_device (Some device) (Some cd) (Some name)
                       type major minor mode w = Some (r, w') →
     store_in_bounds (tdb_map w'))
  ∧ (∀ name r w',
       udevdb_delete_udevice name w = Some (r, w') →
       store_in_bounds (tdb_map w')).
Proof.
  intros Hwf. split.
  - intros device cd name type major minor mode r w' HL HA H.
    apply udevdb_add_device_inv in H as (j & -> & _).
    apply apply_writes_in_bounds; [done|].
    apply Forall_take. by apply add_writes_in_bounds.
  - intros name r w' H. apply udevdb_delete_udevice_subseteq in H.
    intros k d Hk. apply (Hwf k).
    by eapply lookup_weaken.
Qed.

Lemma apply_writes_after_prefix device cd name type major minor mode m k :
  let ws := add_writes device cd name type major minor mode in
  apply_writes ws (apply_writes (take k ws) m) = apply_writes ws m.
Proof.
  cbv zeta. unfold add_writes. apply map_eq. intros x.
  do 4 (destruct k as [|k]; cbn [take apply_writes];
        [rewrite !lookup_insert; by repeat case_decide|]).
  rewrite take_nil. cbn [apply_writes].
  rewrite !lookup_insert; by repeat case_decide.
Qed.

(** X14.  An add can be repeated.  After an add that failed at any of
    its writes, the same add without a fault returns 0 and leaves the
    store that a first clean add would have left; the same holds when the
    first add succeeded. *)
Theorem repeated_add_ends_as_a_clean_add
    device cd name type major minor mode w r w1 :
  limits_ok → add_args_ok device cd name →
  udevdb_add_device (Some device) (Some cd) (Some name)
                    type major minor mode w = Some (r, w1) →
  udevdb_add_device (Some device) (Some cd) (Some name)
                    type major minor mode (World (tdb_map w1) [])
  = Some (0, World (apply_writes
                      (add_writes device cd name type major minor mode)
                      (tdb_map w)) []).
Proof.
  intros HL HA H.
  apply udevdb_add_device_inv in H as (j & -> & _).
  rewrite udevdb_add_device_run, run_writes_no_fault by done.
  by rewrite apply_writes_after_prefix.
Qed.

(** X15.  What a store function wrote, the matching fetch reads back.
    With no fault and the strings of the device within bounds, the name
    stored by [busdb_store] is fetched by the bus name and id of the
    device, the name stored by [classdb_store] by its class name and
    class device name, the name stored by [sysfs_store] by the path when
    that is shorter than [PATH_SIZE], and the record stored by
    [namedb_store] by the name, all ten fields as they were stored. *)
Theorem fetch_reads_back_what_store_wrote dev drv m :
  (strlen UDEVDB_DEL ≤ 3)%nat → (NAME_SIZE ≤ PATH_SIZE)%nat →
  udevice_in_bounds dev → dev_driver dev = Some drv →
  (∃ m', busdb_store (Some dev) (World m []) = Some (0, World m' [])
         ∧ busdb_fetch (Some (dev_bus_name dev)) (Some (dev_bus_id dev))
             (World m' [])
           = Some (Some (Busdb_record (dev_name dev)), World m' []))
  ∧ (∃ m', classdb_store (Some dev) (World m []) = Some (0, World m' [])
           ∧ classdb_fetch (Some (dev_class_name dev))
               (Some (dev_class_dev_name dev)) (World m' [])
             = Some (Some (Classdb_record (dev_name dev)), World m' []))
  ∧ (∀ path, (strlen path < PATH_SIZE)%nat →
       ∃ m', sysfs_store (Some path) (Some dev) (World m [])
             = Some (0, World m' [])
             ∧ sysfsdb_fetch path (World m' [])
               = Some (Some (Sysfsdb_record (dev_name dev)), World m' []))
  ∧ (∃ m', namedb_store (Some dev) (World m []) = Some (0, World m' [])
           ∧ namedb_fetch (Some (dev_name dev)) (World m' [])
             = Some (Some {| nrec_sysfs_dev_path := dev_sysfs_dev_path dev;
                             nrec_class_dev_name := dev_class_dev_name dev;
                             nrec_class_name := dev_class_name dev;
                             nrec_bus := dev_bus_name dev;
                             nrec_id := dev_bus_id dev;
                             nrec_driver := drv;
                             nrec_type := dev_type dev;
                             nrec_major := dev_major dev;
                             nrec_minor := dev_minor dev;
                             nrec_mode := dev_mode dev |}, World m' [])).
Proof.
  intros Hd Hp (Hn & Hsp & Hcd & Hc & Hi & Hb & Hdrv) Edrv.
  rewrite Edrv in Hdrv.
  split; [|split; [|split]].
  - eexists. rewrite busdb_store_ok, tdb_store_run by lia.
    split; [reflexivity|]. cbn [pop_fault fst snd].
    apply busdb_fetch_hit; [done..|apply lookup_insert_eq].
  - eexists. rewrite classdb_store_ok, tdb_store_run by lia.
    split; [reflexivity|]. cbn [pop_fault fst snd].
    apply classdb_fetch_hit; [done..|apply lookup_insert_eq].
  - intros path Hpath. eexists.
    rewrite sysfs_store_ok, tdb_store_run by lia.
    split; [reflexivity|]. cbn [pop_fault fst snd].
    apply sysfsdb_fetch_hit; [done|apply lookup_insert_eq].
  - eexists. erewrite namedb_store_ok by done. rewrite tdb_store_run.
    split; [reflexivity|]. cbn [pop_fault fst snd].
    apply namedb_fetch_hit; [done|apply lookup_insert_eq].
Qed.

End Invariant.

(** *** The handle *)

Section Handle.
Context {F : open_flags}.

Lemma udevdb_exit_no_handle q : udevdb (udevdb_exit q) = None.
Proof. by destruct q as [[db|] os]. Qed.

Lemma udevdb_exit_twice q : udevdb_exit (udevdb_exit q) = udevdb_exit q.
Proof. by destruct q as [[db|] os]. Qed.

(** X16.  The return value of [udevdb_init] tells the state of the
    handle: 0 means a database is open; -EINVAL means [tdb_open] failed
    and the handle is [NULL], also when a database was open before; -1
    means the flag was neither [UDEVDB_DEFAULT] nor [UDEVDB_INTERNAL],
    [tdb_open] was not called and nothing changed.  In each case
    [udevdb_exit] then leaves the handle [NULL], and a second
    [udevdb_exit] changes nothing. *)
Theorem init_return_value_tells_the_handle init_flag p r p' :
  udevdb_init init_flag p = (r, p') →
  ((r = 0 ∧ is_Some (udevdb p')
    ∧ (init_flag = UDEVDB_DEFAULT ∨ init_flag = UDEVDB_INTERNAL))
   ∨ (r = - EINVAL ∧ udevdb p' = None
      ∧ (init_flag = UDEVDB_DEFAULT ∨ init_flag = UDEVDB_INTERNAL))
   ∨ (r = -1 ∧ p' = p
      ∧ init_flag ≠ UDEVDB_DEFAULT ∧ init_flag ≠ UDEVDB_INTERNAL))
  ∧ udevdb (udevdb_exit p') = None
  ∧ udevdb_exit (udevdb_exit p') = udevdb_exit p'.
Proof.
  intros H. split; [|split; [apply udevdb_exit_no_handle
                            |apply udevdb_exit_twice]].
  revert H. unfold udevdb_init, udevdb_open, tdb_open.
  destruct (Z.eqb_spec init_flag UDEVDB_DEFAULT) as [Hd|Hd],
           (Z.eqb_spec init_flag UDEVDB_INTERNAL) as [Hi|Hi];
    cbn [negb andb];
    try (intros [= <- <-]; right; right; done).
  all: destruct (opens p) as [|[db|] rest]; cbn [opens udevdb];
    intros [= <- <-]; cbn [udevdb]; eauto 10.
Qed.

End Handle.

(** *** The further properties, run *)

Section FurtherScenario.
Local Existing Instance udev_limits.
Local Existing Instance udev_flags.

Lemma sdb_args_ok : add_args_ok "/block/sdb" sdb_cd "sdb".
Proof. repeat split; vm_compute; lia. Qed.

Lemma sda_store_in_bounds : store_in_bounds sda_store.
Proof.
  change sda_store with
    (apply_writes (add_writes "/block/sda" (class_dev_of sda) "sda"
                              "b"%char 8 0 432) ∅).
  apply apply_writes_in_bounds; [done|].
  apply add_writes_in_bounds; [apply udev_limits_ok | apply sda_args_ok].
Qed.

Example add_sdb_second_write_fails :
  udevdb_add_device (Some "/block/sdb"%string) (Some sdb_cd)
    (Some "sdb"%string) "b"%char 8 16 432 (World sda_store [false; true])
  = Some (-1, World sda_store_and_sdb_bus []).
Proof. vm_compute. reflexivity. Qed.



Example delete_sdb_missing :
  udevdb_delete_udevice (Some "sdb"%string) (World sda_store [])
  = Some (-1, World sda_store []).
Proof. vm_compute. reflexivity. Qed.

(** X3, witness: "sdb" has no record in [sda_store]. *)
Lemma delete_return_value_witness :
  udevdb_delete_udevice (Some "sdb"%string) (World sda_store [])
  = Some (-1, World sda_store [])
  ∧ ((-1 = -1 ∧ sda_store = sda_store)
     ∨ (-1 = 0 ∧ ∃ nm nrec, Some "sdb"%string = Some nm
                             ∧ (strlen nm < NAME_SIZE)%nat
                             ∧ sda_store !! nm = Some (NameData nrec))).
Proof.
  split; [apply delete_sdb_missing|].
  exact (delete_return_value _ _ _ _ delete_sdb_missing).
Defined.

Example delete_sda_bus_deletion_fails :
  udevdb_delete_udevice (Some "sda"%string)
    (World sda_store [false; false; true])
  = Some (0, World (delete "sda"%string (delete "#sda"%string sda_store)) []).
Proof. vm_compute. reflexivity. Qed.

(** X4, witness: the delete of "sda" with a failing bus deletion leaves
    the path entry. *)
Lemma delete_only_removes_its_keys_witness :
  udevdb_delete_udevice (Some "sda"%string)
    (World sda_store [false; false; true])
  = Some (0, World (delete "sda"%string (delete "#sda"%string sda_store)) [])
  ∧ delete "sda"%string (delete "#sda"%string sda_store) ⊆ sda_store
  ∧ delete "sda"%string (delete "#sda"%string sda_store)
      !! "/block/sda"%string
    = sda_store !! "/block/sda"%string.
Proof.
  split; [apply delete_sda_bus_deletion_fails|].
  destruct (delete_only_removes_its_keys _ _ _ _ delete_sda_bus_deletion_fails)
    as [Hsub Hk].
  split; [exact Hsub|].
  apply (Hk "sda"%string sda_record); [done | by vm_compute | ..];
    vm_compute; discriminate.
Defined.

(** X5, witness: the delete of "sda" from [sda_store]. *)
Lemma delete_removes_record_and_its_index_keys_witness :
  (strlen UDEVDB_DEL ≤ 3)%nat ∧ store_in_bounds sda_store
  ∧ (strlen "sda" < NAME_SIZE)%nat
  ∧ sda_store !! "sda"%string = Some (NameData sda_record)
  ∧ ∃ m', udevdb_delete_udevice (Some "sda"%string) (World sda_store [])
          = Some (0, World m' [])
          ∧ udevdb_delete_udevice (Some "sda"%string) (World m' [])
            = Some (-1, World m' []).
Proof.
  assert (strlen UDEVDB_DEL ≤ 3)%nat as Hd by (vm_compute; lia).
  assert (strlen "sda" < NAME_SIZE)%nat as Hn by (vm_compute; lia).
  assert (sda_store !! "sda"%string = Some (NameData sda_record)) as Hm
    by (vm_compute; reflexivity).
  split; [exact Hd|]. split; [apply sda_store_in_bounds|].
  split; [exact Hn|]. split; [exact Hm|].
  destruct (delete_removes_record_and_its_index_keys "sda" sda_record
              sda_store Hd sda_store_in_bounds Hn Hm)
    as (m' & H1 & _ & _ & _ & _ & H2).
  by exists m'.
Defined.




Lemma null_args_ok : add_args_ok "/class/mem/null" null_cd "null".
Proof. repeat split; vm_compute; lia. Qed.

Lemma zero_args_ok : add_args_ok "/class/mem/zero" zero_cd "zero".
Proof. repeat split; vm_compute; lia. Qed.

(** X8, witness: "null" and "zero" have no sysdevice; both get the bus
    key "unknown#". *)
Lemma delete_takes_shared_bus_entry_witness :
  sys_bus_id null_cd = sys_bus_id zero_cd
  ∧ ∃ m1 m2 m3,
      udevdb_add_device (Some "/class/mem/null"%string) (Some null_cd)
        (Some "null"%string) "c"%char 1 3 438 empty_world
      = Some (0, World m1 [])
      ∧ udevdb_add_device (Some "/class/mem/zero"%string) (Some zero_cd)
          (Some "zero"%string) "c"%char 1 5 438 (World m1 [])
        = Some (0, World m2 [])
      ∧ udevdb_delete_udevice (Some "null"%string) (World m2 [])
        = Some (0, World m3 [])
      ∧ udevdb_get_udevice_by_bus (Some "unknown"%string)
          (Some EmptyString) (World m3 [])
        = Some (None, World m3 [])
      ∧ udevdb_get_udevice (Some "zero"%string) (World m3 [])
        = Some (Some (udevice_of "zero"
                        (added_record zero_cd "c"%char 1 5 438)),
                World m3 []).
Proof.
  split; [reflexivity|].
  apply (delete_takes_shared_bus_entry "/class/mem/null" null_cd "null"
           "c"%char 1 3 438 "/class/mem/zero" zero_cd "zero" "c"%char 1 5 438
           ∅ udev_limits_ok null_args_ok zero_args_ok eq_refl);
    vm_compute; discriminate.
Defined.

(** X9, witness: the scenario of the specification. *)
Lemma path_lookup_chains_to_the_record_witness :
  (strlen "/block/sda" < PATH_SIZE)%nat
  ∧ ∃ m',
      udevdb_add_device (Some "/block/sda"%string) (Some (class_dev_of sda))
        (Some "sda"%string) "b"%char 8 0 432 empty_world
      = Some (0, World m' [])
      ∧ udevdb_get_udevice_by_sysfs (Some "/block/sda"%string) (World m' [])
        = Some (Some "sda"%string, World m' [])
      ∧ udevdb_get_udevice (Some "sda"%string) (World m' [])
        = Some (Some sda_found, World m' []).
Proof.
  assert (strlen "/block/sda" < PATH_SIZE)%nat as Hp by (vm_compute; lia).
  split; [exact Hp|].
  apply (path_lookup_chains_to_the_record "/block/sda" (class_dev_of sda)
           "sda" "b"%char 8 0 432 ∅ udev_limits_ok sda_args_ok Hp).
  discriminate.
Defined.

(** A lookup reads whatever value its key holds.  The lookup by class
    with the parts of the bus key finds the bus entry; the lookup by path
    with the name finds the name record and returns its path. *)
Example sda_by_class_reads_bus_entry :
  udevdb_get_udevice_by_class (Some "unknown"%string)
    (Some "0:0:0:0"%string) (World sda_store [])
  = Some (Some sda_found, World sda_store []).
Proof. vm_compute. reflexivity. Qed.

Example sda_by_path_reads_name_record :
  udevdb_get_udevice_by_sysfs (Some "sda"%string) (World sda_store [])
  = Some (Some "/block/sda"%string, World sda_store []).
Proof. vm_compute. reflexivity. Qed.

Example sda_by_bus :
  udevdb_get_udevice_by_bus (Some "unknown"%string) (Some "0:0:0:0"%string)
    (World sda_store [])
  = Some (Some sda_found, World sda_store []).
Proof. vm_compute. reflexivity. Qed.

(** X10, witness: in [sda_store] the lookup by class "unknown" and
    "0:0:0:0" builds the key of the bus entry and reads that entry. *)
Lemma lookup_results_come_from_the_store_witness :
  udevdb_get_udevice_by_class (Some "unknown"%string)
    (Some "0:0:0:0"%string) (World sda_store [])
  = Some (Some sda_found, World sda_store [])
  ∧ ∃ c dv d crec nrec,
      Some "unknown"%string = Some c ∧ Some "0:0:0:0"%string = Some dv
      ∧ (strlen c < NAME_SIZE)%nat ∧ (strlen dv < NAME_SIZE)%nat
      ∧ sda_store !! key2 c dv = Some d
      ∧ as_classdb_record d = Some crec
      ∧ sda_store !! classdb_name crec = Some (NameData nrec)
      ∧ sda_found = udevice_of (classdb_name crec) nrec.
Proof.
  split; [apply sda_by_class_reads_bus_entry|].
  exact (proj1 (proj2 (proj2 (lookup_results_come_from_the_store _ _)))
           _ _ _ sda_by_class_reads_bus_entry).
Defined.

(** X11, witness: a name of [NAME_SIZE] characters, with a fault ahead
    that is not consumed. *)
Lemma null_or_overlong_argument_is_not_looked_up_witness :
  null_or_long NAME_SIZE (Some (fill 100 "a"%char))
  ∧ udevdb_get_udevice (Some (fill 100 "a"%char)) (World sda_store [true])
    = Some (None, World sda_store [true])
  ∧ udevdb_delete_udevice (Some (fill 100 "a"%char)) (World sda_store [true])
    = Some (-1, World sda_store [true]).
Proof.
  assert (null_or_long NAME_SIZE (Some (fill 100 "a"%char))) as Hl
    by (vm_compute; lia).
  split; [exact Hl|].
  exact (proj1 (null_or_overlong_argument_is_not_looked_up
                  (World sda_store [true])) _ Hl).
Defined.

(** X12, witness: "#" does not occur in "sda". *)
Lemma delimiter_free_name_is_found_by_bus_and_class_witness :
  UDEVDB_DEL = String "#"%char EmptyString
  ∧ occurs "#"%char "sda" = false
  ∧ limits_ok ∧ add_args_ok "/block/sda" (class_dev_of sda) "sda"
  ∧ ∃ m',
      udevdb_add_device (Some "/block/sda"%string) (Some (class_dev_of sda))
        (Some "sda"%string) "b"%char 8 0 432 empty_world
      = Some (0, World m' [])
      ∧ udevdb_get_udevice_by_bus (Some "unknown"%string)
          (Some "0:0:0:0"%string) (World m' [])
        = Some (Some sda_found, World m' [])
      ∧ udevdb_get_udevice_by_class (Some EmptyString)
          (Some "sda"%string) (World m' [])
        = Some (Some sda_found, World m' []).
Proof.
  split; [reflexivity|]. split; [reflexivity|].
  split; [apply udev_limits_ok|]. split; [apply sda_args_ok|].
  exact (proj2 (delimiter_free_name_is_found_by_bus_and_class "#"%char
                  eq_refl)
           "/block/sda" (class_dev_of sda) "sda" "b"%char 8 0 432 ∅
           eq_refl udev_limits_ok sda_args_ok).
Defined.

(** X13, witness: [sda_store] and what the failed add of "sdb" leaves. *)
Lemma add_and_delete_keep_records_in_bounds_witness :
  store_in_bounds sda_store ∧ store_in_bounds sda_store_and_sdb_bus.
Proof.
  split; [apply sda_store_in_bounds|].
  exact (proj1 (add_and_delete_keep_records_in_bounds
                  (World sda_store [false; true]) sda_store_in_bounds)
           _ _ _ _ _ _ _ _ _ udev_limits_ok sdb_args_ok
           add_sdb_second_write_fails).
Defined.

(** X14, witness: the add of "sdb" repeated after its failure. *)
Lemma repeated_add_ends_as_a_clean_add_witness :
  udevdb_add_device (Some "/block/sdb"%string) (Some sdb_cd)
    (Some "sdb"%string) "b"%char 8 16 432 (World sda_store [false; true])
  = Some (-1, World sda_store_and_sdb_bus [])
  ∧ udevdb_add_device (Some "/block/sdb"%string) (Some sdb_cd)
      (Some "sdb"%string) "b"%char 8 16 432 (World sda_store_and_sdb_bus [])
    = Some (0, World (apply_writes
                        (add_writes "/block/sdb" sdb_cd "sdb"
                           "b"%char 8 16 432) sda_store) []).
Proof.
  split; [apply add_sdb_second_write_fails|].
  exact (repeated_add_ends_as_a_clean_add _ _ _ _ _ _ _ _ _ _
           udev_limits_ok sdb_args_ok add_sdb_second_write_fails).
Defined.

Lemma sda_normalized_in_bounds : udevice_in_bounds (spec_normalized sda).
Proof. repeat split; vm_compute; lia. Qed.

(** X15, witness: the device of the scenario, bus "scsi", class "block". *)
Lemma fetch_reads_back_what_store_wrote_witness :
  udevice_in_bounds (spec_normalized sda)
  ∧ ∃ m', busdb_store (Some (spec_normalized sda)) empty_world
          = Some (0, World m' [])
          ∧ busdb_fetch (Some "scsi"%string) (Some "0:0:0:0"%string)
              (World m' [])
            = Some (Some (Busdb_record "sda"), World m' []).
Proof.
  split; [apply sda_normalized_in_bounds|].
  refine (proj1 (fetch_reads_back_what_store_wrote (spec_normalized sda)
                   "sd" ∅ _ _ sda_normalized_in_bounds eq_refl));
    vm_compute; lia.
Defined.

(** X16, witness: an init with [UDEVDB_DEFAULT] and nothing scheduled. *)
Lemma init_return_value_tells_the_handle_witness :
  udevdb_init 0 (Process None []) = (0, Process (Some ∅) [])
  ∧ udevdb (udevdb_exit (Process (Some ∅) [])) = None.
Proof.
  assert (udevdb_init 0 (Process None []) = (0, Process (Some ∅) [])) as Hi
    by reflexivity.
  split; [exact Hi|].
  exact (proj1 (proj2 (init_return_value_tells_the_handle _ _ _ _ Hi))).
Defined.

End FurtherScenario.
